(** * Code execution and grading service

    A shallow embedding of the two Python modules that make up the code
    execution and grading subsystem:

    - [code-executor/app.py]: class [CodeExecutor] ([execute_code],
      [_build_command]) together with the Flask endpoint;
    - [backend/app/services/code_execution_service.py]: class
      [CodeExecutionService] ([test_student_code], [_execute_code],
      [_compare_outputs]).

    Python strings are modelled as sequences of code points below 256
    ([string]); Python floats as IEEE-754 binary64 values ([spec_float] at
    precision 53, maximal exponent 1024); the file system and the process
    table as finite maps and sets; the operating system, the compilers, the
    submitted program and the HTTP transport as explicit oracles. What a
    submitted program does to the file system is not modelled; writing
    the source file and unlinking it are taken to succeed; and an HTTP
    response is taken to carry one of the two dictionaries that
    [execute_code] returns. *)

From Stdlib Require Import ZArith String Ascii List Bool Lia SpecFloat.
From stdpp Require Import base gmap strings.

Local Open Scope string_scope.
Local Open Scope Z_scope.
#[local] Arguments String.append : simpl nomatch.
#[local] Set Warnings "-clear-no-such-hyp".

(** ** Python [str] primitives used by the two modules *)

Module PyStr.

Definition code (c : ascii) : N := N_of_ascii c.

Definition in_range (lo hi : N) (c : ascii) : bool :=
  (lo <=? code c)%N && (code c <=? hi)%N.

(** [str.isspace] restricted to code points below 256: TAB..CR, FS..US,
    SPACE, NEL and NBSP. This is the set removed by [str.strip()]. *)
Definition is_space (c : ascii) : bool :=
  in_range 9 13 c || in_range 28 32 c
  || (code c =? 133)%N || (code c =? 160)%N.

Fixpoint lstrip (s : string) : string :=
  match s with
  | EmptyString => EmptyString
  | String c t => if is_space c then lstrip t else s
  end.

Fixpoint rstrip (s : string) : string :=
  match s with
  | EmptyString => EmptyString
  | String c t =>
      match rstrip t with
      | EmptyString => if is_space c then EmptyString else String c EmptyString
      | t' => String c t'
      end
  end.

(** [s.strip()] *)
Definition strip (s : string) : string := rstrip (lstrip s).

(** [str.lower] on one code point below 256: A..Z and the Latin-1
    capitals (all of C0..DE but the multiplication sign D7). *)
Definition lower_char (c : ascii) : ascii :=
  if in_range 65 90 c
     || (in_range 192 222 c && negb (code c =? 215)%N)
  then ascii_of_N (code c + 32)
  else c.

Fixpoint lower (s : string) : string :=
  match s with
  | EmptyString => EmptyString
  | String c t => String (lower_char c) (lower t)
  end.

Fixpoint starts_with (p s : string) : bool :=
  match p, s with
  | EmptyString, _ => true
  | String a p', String b s' => Ascii.eqb a b && starts_with p' s'
  | String _ _, EmptyString => false
  end.

(** [needle in hay] *)
Fixpoint contains (needle hay : string) : bool :=
  starts_with needle hay ||
  match hay with
  | EmptyString => false
  | String _ t => contains needle t
  end.

(** [s.replace(old, new)] for a non-empty [old]: a left-to-right scan
    over non-overlapping occurrences. [skip] counts the characters of
    an occurrence already replaced that are still to be passed over. *)
Fixpoint replace_from (old new : string) (skip : nat) (s : string) : string :=
  match s with
  | EmptyString => EmptyString
  | String c t =>
      match skip with
      | S k => replace_from old new k t
      | O =>
          if starts_with old s
          then new +:+ replace_from old new (Nat.pred (String.length old)) t
          else String c (replace_from old new 0 t)
      end
  end.

Definition replace (old new s : string) : string :=
  replace_from old new 0 s.

(** [s.split()]: split on runs of white space, dropping empty fields. *)
Fixpoint split_from (cur : string) (s : string) : list string :=
  match s with
  | EmptyString =>
      match cur with EmptyString => [] | _ => [String.rev cur] end
  | String c t =>
      if is_space c
      then match cur with
           | EmptyString => split_from EmptyString t
           | _ => String.rev cur :: split_from EmptyString t
           end
      else split_from (String c cur) t
  end.

Definition split (s : string) : list string := split_from EmptyString s.

Fixpoint all_space (s : string) : bool :=
  match s with
  | EmptyString => true
  | String c t => is_space c && all_space t
  end.

End PyStr.

(** ** Python [float]: parsing of a string and the arithmetic used for the score *)

Module PyFloat.

Definition prec : Z := 53.
Definition emax : Z := 1024.

(** A Python float: an IEEE-754 binary64 value. *)
Definition float : Type := spec_float.

Definition is_digit (c : ascii) : bool := PyStr.in_range 48 57 c.

Definition digit_value (c : ascii) : Z := Z.of_N (PyStr.code c) - 48.

(** White space skipped by [float()] around its argument: the C
    [isspace] set, and NEL and NBSP, which are first turned into a
    space. *)
Definition float_space (c : ascii) : bool :=
  PyStr.in_range 9 13 c || (PyStr.code c =? 32)%N
  || (PyStr.code c =? 133)%N || (PyStr.code c =? 160)%N.

Fixpoint skip_leading (s : string) : string :=
  match s with
  | EmptyString => EmptyString
  | String c t => if float_space c then skip_leading t else s
  end.

Fixpoint skip_trailing (s : string) : string :=
  match s with
  | EmptyString => EmptyString
  | String c t =>
      match skip_trailing t with
      | EmptyString => if float_space c then EmptyString else String c EmptyString
      | t' => String c t'
      end
  end.

(** Underscores may only stand between two digits; they are removed
    before the number is read. [prev] is the character just passed. *)
Fixpoint remove_underscores (prev : ascii) (s : string) : option string :=
  match s with
  | EmptyString => if Ascii.eqb prev "_" then None else Some EmptyString
  | String c t =>
      if Ascii.eqb c "_"
      then (if is_digit prev then remove_underscores c t else None)
      else if Ascii.eqb prev "_" && negb (is_digit c) then None
           else option_map (String c) (remove_underscores c t)
  end.

(** An optional sign: [(negative, rest)]. *)
Definition read_sign (s : string) : bool * string :=
  match s with
  | String "-" t => (true, t)
  | String "+" t => (false, t)
  | _ => (false, s)
  end.

(** The longest prefix of decimal digits and what follows it. *)
Fixpoint read_digits (s : string) : string * string :=
  match s with
  | EmptyString => (EmptyString, EmptyString)
  | String c t =>
      if is_digit c
      then let '(d, r) := read_digits t in (String c d, r)
      else (EmptyString, s)
  end.

Fixpoint digits_value_from (acc : Z) (s : string) : Z :=
  match s with
  | EmptyString => acc
  | String c t => digits_value_from (10 * acc + digit_value c) t
  end.

Definition digits_value (s : string) : Z := digits_value_from 0 s.

Definition len (s : string) : Z := Z.of_nat (String.length s).

(** [digits [. digits] | . digits], then an optional exponent, then the
    end of the string: the decimal coefficient and the power of ten. *)
Definition read_number (s : string) : option (Z * Z) :=
  let '(ip, r1) := read_digits s in
  let '(fp, r2) :=
    match r1 with
    | String "." t => read_digits t
    | _ => (EmptyString, r1)
    end in
  if (len ip + len fp =? 0) then None
  else
    let coefficient := digits_value (ip +:+ fp) in
    match r2 with
    | EmptyString => Some (coefficient, - len fp)
    | String c t =>
        if Ascii.eqb c "e" || Ascii.eqb c "E" then
          let '(eneg, t1) := read_sign t in
          let '(ed, r3) := read_digits t1 in
          match ed, r3 with
          | String _ _, EmptyString =>
              let e := digits_value ed in
              Some (coefficient, (if eneg then - e else e) - len fp)
          | _, _ => None
          end
        else None
    end.

(** The binary64 value nearest to [coefficient * 10 ^ e10] (ties to
    even; overflow gives an infinity, underflow a zero). *)
Definition decimal_to_float (neg : bool) (coefficient e10 : Z) : float :=
  match coefficient with
  | Zpos m =>
      if 0 <=? e10
      then binary_round prec emax neg (m * Z.to_pos (10 ^ e10))%positive 0
      else SFdiv prec emax (S754_finite neg m 0)
                 (S754_finite false (Z.to_pos (10 ^ (- e10))) 0)
  | _ => S754_zero neg
  end.

(** [float(s)] for a string [s]; [None] stands for [ValueError]. *)
Definition of_string (s : string) : option float :=
  match skip_trailing (skip_leading s) with
  | EmptyString => None
  | body =>
      match remove_underscores Ascii.zero body with
      | None => None
      | Some clean =>
          let '(neg, rest) := read_sign clean in
          let word := PyStr.lower rest in
          if String.eqb word "inf" || String.eqb word "infinity"
          then Some (S754_infinity neg)
          else if String.eqb word "nan" then Some S754_nan
          else
            match read_number rest with
            | Some (coefficient, e10) => Some (decimal_to_float neg coefficient e10)
            | None => None
            end
      end
  end.

(** [x == y] on floats. *)
Definition eqb (x y : float) : bool := SFeqb x y.

(** [float(n)] for an int [n] that a binary64 holds exactly or, if not,
    rounded to nearest. *)
Definition of_int (n : Z) : float := binary_normalize prec emax n 0 false.

(** [a / b] on ints (true division): the quotient correctly rounded;
    [None] stands for [ZeroDivisionError]. *)
Definition int_truediv (a b : Z) : option float :=
  match a, b with
  | _, Z0 => None
  | Z0, Zpos _ => Some (S754_zero false)
  | Z0, Zneg _ => Some (S754_zero true)
  | Zpos m, Zpos n => Some (SFdiv prec emax (S754_finite false m 0) (S754_finite false n 0))
  | Zpos m, Zneg n => Some (SFdiv prec emax (S754_finite false m 0) (S754_finite true n 0))
  | Zneg m, Zpos n => Some (SFdiv prec emax (S754_finite true m 0) (S754_finite false n 0))
  | Zneg m, Zneg n => Some (SFdiv prec emax (S754_finite true m 0) (S754_finite true n 0))
  end.

(** [x * n] for a float [x] and an int [n]. *)
Definition mul_int (x : float) (n : Z) : float := SFmul prec emax x (of_int n).

End PyFloat.

(** ** The shape of an execution result

    [execute_code] returns one of two dictionaries:
    [{"stdout", "stderr", "return_code", "success"}] or [{"error"}].
    The same dictionaries travel as JSON to the grading service. *)

Inductive ExecResult : Type :=
| Completed (stdout stderr : string) (return_code : Z) (success : bool)
| Error (error : string).

(** [d.get(key)] for the keys the code reads. *)
Definition get_stdout (d : ExecResult) : option string :=
  match d with
  | Completed out _ _ _ => Some out
  | Error _ => None
  end.

Definition get_stderr (d : ExecResult) : option string :=
  match d with
  | Completed _ err _ _ => Some err
  | Error _ => None
  end.

Definition get_return_code (d : ExecResult) : option Z :=
  match d with
  | Completed _ _ rc _ => Some rc
  | Error _ => None
  end.

Definition get_success (d : ExecResult) : option bool :=
  match d with
  | Completed _ _ _ ok => Some ok
  | Error _ => None
  end.

Definition get_error (d : ExecResult) : option string :=
  match d with
  | Completed _ _ _ _ => None
  | Error msg => Some msg
  end.

(** A Python call either returns a value or raises; [Raise] carries
    [str(e)] of the exception. *)
Inductive Outcome (A : Type) : Type :=
| Return (a : A)
| Raise (message : string).
Arguments Return {A} a.
Arguments Raise {A} message.

(** ** [code-executor/app.py] *)

Module Executor.

Definition MAX_EXECUTION_TIME : Z := 10.
Definition MEMORY_LIMIT : Z := 256 * 1024 * 1024.
Definition MAX_OUTPUT_SIZE : Z := 1024 * 1024.

(** [set_limits], run in the child before the program starts: the
    soft and hard values of each limit. *)
Definition set_limits : list (string * (Z * Z)) :=
  [ ("RLIMIT_CPU", (MAX_EXECUTION_TIME, MAX_EXECUTION_TIME));
    ("RLIMIT_AS", (MEMORY_LIMIT, MEMORY_LIMIT));
    ("RLIMIT_FSIZE", (MAX_OUTPUT_SIZE, MAX_OUTPUT_SIZE)) ].

Record LangInfo : Type := { extension : string; command : string }.

(** [self.supported_languages], in insertion order. *)
Definition supported_languages : list (string * LangInfo) :=
  [ ("python", {| extension := "py"; command := "python3" |});
    ("javascript", {| extension := "js"; command := "node" |});
    ("java", {| extension := "java"; command := "java" |});
    ("cpp", {| extension := "cpp"; command := "g++" |});
    ("go", {| extension := "go"; command := "go run" |}) ].

Fixpoint lookup_in (table : list (string * LangInfo)) (language : string) : option LangInfo :=
  match table with
  | [] => None
  | (k, v) :: rest => if String.eqb k language then Some v else lookup_in rest language
  end.

Definition lookup_language (language : string) : option LangInfo :=
  lookup_in supported_languages language.

(** *** The host: files, processes and what was asked of the system *)

Definition pid : Type := positive.

Inductive Event : Type :=
| EvCreate (path : string)
| EvCompile (cmd : list string)
| EvSpawn (cmd : list string)
| EvKill (p : pid)
| EvUnlink (path : string).

Record World : Type := {
  files : gmap string string;   (* path to content *)
  procs : gset pid;             (* live processes started by executions *)
  log : list Event              (* system requests, oldest first *)
}.

(** How a child ended. A child ended by a signal has the negated signal
    number as its [returncode]; [over_limit] records whether the kernel
    sent the signal because a limit of [set_limits] was exceeded, which
    the parent cannot observe. *)
Inductive Termination : Type :=
| Exited (status : Z)
| Signaled (sig : Z) (over_limit : bool).

Definition returncode (t : Termination) : Z :=
  match t with
  | Exited status => status
  | Signaled sig _ => - sig
  end.

(** What [subprocess.run(compile_command, capture_output=True)] does. *)
Inductive CompileOutcome : Type :=
| CompileNotStarted (message : string)
| CompileExit (rc : Z) (stderr : string) (written : gmap string string).

(** What [Popen(command)] followed by
    [communicate(input, timeout=MAX_EXECUTION_TIME)] does. *)
Inductive RunOutcome : Type :=
| RunRaised (message : string) (alive : gset pid)
| Ran (child : pid) (left_behind : gset pid)
      (stdout stderr : string) (t : Termination)
| DeadlineExpired (child : pid) (descendants : gset pid).

(** The environment of one call of [execute_code]. [tmp_names] lists
    the random names that [NamedTemporaryFile] tries, in order. *)
Record Env : Type := {
  tmp_names : list string;
  compiler : list string -> gmap string string -> CompileOutcome;
  program : list string -> string -> gmap string string -> RunOutcome
}.

Definition record (e : Event) (w : World) : World :=
  {| files := files w; procs := procs w; log := (log w ++ [e])%list |}.

Definition with_files (fs : gmap string string) (w : World) : World :=
  {| files := fs; procs := procs w; log := log w |}.

Definition with_procs (ps : gset pid) (w : World) : World :=
  {| files := files w; procs := ps; log := log w |}.

(** *** Temporary file *)

Definition executions_dir : string := "/tmp/executions".

(** [os.path.join(dir, "tmp" + name + suffix)] *)
Definition tmp_path (suffix name : string) : string :=
  executions_dir +:+ "/" +:+ "tmp" +:+ name +:+ suffix.

(** The characters of the random names of [tempfile]:
    [abcdefghijklmnopqrstuvwxyz0123456789_]. *)
Definition is_tmp_char (c : ascii) : bool :=
  PyStr.in_range 97 122 c || PyStr.in_range 48 57 c || (PyStr.code c =? 95)%N.

Fixpoint tmp_name_ok (name : string) : bool :=
  match name with
  | EmptyString => true
  | String c t => is_tmp_char c && tmp_name_ok t
  end.

(** The first candidate whose path does not exist yet (the file is
    opened with [O_EXCL]); [None] when every candidate is taken. *)
Fixpoint first_unused (fs : gmap string string) (suffix : string)
         (candidates : list string) : option string :=
  match candidates with
  | [] => None
  | name :: rest =>
      match fs !! tmp_path suffix name with
      | Some _ => first_unused fs suffix rest
      | None => Some (tmp_path suffix name)
      end
  end.

(** *** [Path(file_path).stem] *)

Fixpoint name_from (cur : string) (s : string) : string :=
  match s with
  | EmptyString => String.rev cur
  | String c t =>
      if Ascii.eqb c "/" then name_from EmptyString t
      else name_from (String c cur) t
  end.

(** The final path component. *)
Definition path_name (path : string) : string := name_from EmptyString path.

Fixpoint rfind_from (c : ascii) (i : nat) (s : string) : option nat :=
  match s with
  | EmptyString => None
  | String a t =>
      match rfind_from c (S i) t with
      | Some j => Some j
      | None => if Ascii.eqb a c then Some i else None
      end
  end.

Definition stem (path : string) : string :=
  let name := path_name path in
  match rfind_from "." 0 name with
  | Some i =>
      if (0 <? i)%nat && (i <? String.length name - 1)%nat
      then String.substring 0 i name
      else name
  | None => name
  end.

(** *** [_build_command] *)

(** The compile step of the Java and C++ branches:
    [subprocess.run(cmd, capture_output=True, text=True)], then the test
    of the return code; [run_cmd] is the command returned on success. *)
Definition run_compiler (env : Env) (cmd : list string) (run_cmd : list string)
           (w : World) : Outcome (list string) * World :=
  let w1 := record (EvCompile cmd) w in
  match compiler env cmd (files w) with
  | CompileNotStarted message => (Raise message, w1)
  | CompileExit rc stderr written =>
      let w2 := with_files (written ∪ files w1) w1 in
      if rc =? 0 then (Return run_cmd, w2)
      else (Raise ("Compilation failed: " +:+ stderr), w2)
  end.

Definition _build_command (env : Env) (language file_path : string) (w : World)
  : Outcome (list string) * World :=
  match lookup_language language with
  | None => (Raise ("'" +:+ language +:+ "'"), w)     (* KeyError *)
  | Some lang_info =>
      if String.eqb language "java" then
        let class_name := stem file_path in
        run_compiler env ["javac"; file_path]
                     ["java"; "-cp"; "/tmp/executions"; class_name] w
      else if String.eqb language "cpp" then
        let output_file := PyStr.replace ".cpp" ".out" file_path in
        run_compiler env ["g++"; file_path; "-o"; output_file]
                     [output_file] w
      else (Return (PyStr.split (command lang_info) ++ [file_path])%list, w)
  end.

(** *** [execute_code] *)

(** The body of the outer [try]. *)
Definition build_and_run (env : Env) (language temp_file input_data : string)
           (w : World) : ExecResult * World :=
  match _build_command env language temp_file w with
  | (Raise e, w1) => (Error ("Execution failed: " +:+ e), w1)
  | (Return cmd, w1) =>
      let w2 := record (EvSpawn cmd) w1 in
      match program env cmd input_data (files w1) with
      | RunRaised e alive =>
          (Error ("Execution failed: " +:+ e), with_procs (procs w2 ∪ alive) w2)
      | Ran child left_behind stdout stderr t =>
          let return_code := returncode t in
          (Completed stdout stderr return_code (return_code =? 0),
           with_procs ((procs w2 ∪ left_behind) ∖ {[child]}) w2)
      | DeadlineExpired child descendants =>
          (* process.kill(): SIGKILL to the pid of the child *)
          let w3 := with_procs (procs w2 ∪ {[child]} ∪ descendants) w2 in
          (Error "Execution timeout",
           record (EvKill child) (with_procs (procs w3 ∖ {[child]}) w3))
      end
  end.

(** The [finally] clause. *)
Definition cleanup (temp_file : string) (w : World) : World :=
  match files w !! temp_file with
  | Some _ => record (EvUnlink temp_file) (with_files (delete temp_file (files w)) w)
  | None => w
  end.

(** [f.write(code)] into the new file. *)
Definition write_source (temp_file code : string) (w : World) : World :=
  record (EvCreate temp_file) (with_files (<[temp_file := code]> (files w)) w).

Definition execute_code (env : Env) (language code input_data : string) (w : World)
  : Outcome ExecResult * World :=
  match lookup_language language with
  | None => (Return (Error ("Unsupported language: " +:+ language)), w)
  | Some lang_info =>
      match first_unused (files w) ("." +:+ extension lang_info) (tmp_names env) with
      | None => (Raise "[Errno 17] No usable temporary file name found", w)
      | Some temp_file =>
          let w1 := write_source temp_file code w in
          let '(result, w2) := build_and_run env language temp_file input_data w1 in
          (Return result, cleanup temp_file w2)
      end
  end.

(** *** The [/execute] endpoint *)

(** A JSON object as the handler reads it; [None] is an absent key. *)
Record Request : Type := {
  req_language : option string;
  req_code : option string;
  req_input : option string
}.

(** The handler, from the value [data] of [request.json]: [None] is the
    JSON value [null], [Some r] a JSON object with string values. A
    request without a JSON body does not get this far (the framework
    answers it), and other JSON values are not modelled. The answer is a
    status and a JSON body; status 500 stands for an exception that
    escaped the handler. *)
Definition endpoint_execute (env : Env) (data : option Request) (w : World)
  : (Z * ExecResult) * World :=
  match data with
  | Some {| req_language := Some language; req_code := Some code; req_input := input |} =>
      match execute_code env language code (default "" input) w with
      | (Return result, w') => ((200, result), w')
      | (Raise e, w') => ((500, Error e), w')
      end
  | _ => ((400, Error "Missing language or code"), w)
  end.

Definition get_languages : list string := map fst supported_languages.

End Executor.

(** ** [backend/app/services/code_execution_service.py] *)

Module Grader.

(** A test case dictionary; [None] is an absent key. *)
Record TestCase : Type := {
  id : option Z;
  input : option string;
  expected_output : option string
}.

Record ProblemData : Type := {
  test_cases : option (list TestCase);
  output_type : option string
}.

(** *** [_compare_outputs] *)

Definition _compare_outputs (actual expected comparison_type : string) : bool :=
  let actual_clean := PyStr.strip actual in
  let expected_clean := PyStr.strip expected in
  if String.eqb comparison_type "exact" then
    String.eqb actual_clean expected_clean
  else if String.eqb comparison_type "numeric" then
    match PyFloat.of_string actual_clean with
    | Some x =>
        match PyFloat.of_string expected_clean with
        | Some y => PyFloat.eqb x y
        | None => String.eqb actual_clean expected_clean   (* except ValueError *)
        end
    | None => String.eqb actual_clean expected_clean       (* except ValueError *)
    end
  else if String.eqb comparison_type "contains" then
    PyStr.contains (PyStr.lower expected_clean) (PyStr.lower actual_clean)
  else
    String.eqb actual_clean expected_clean.

(** *** [_execute_code] *)

Record Payload : Type := {
  language : string;
  code : string;
  payload_input : string
}.

(** What [requests.post(url, json=payload, timeout=30)] does: it raises
    a [RequestException] (no connection, timeout), or it returns a
    response with a status, the text that [raise_for_status] would put
    in its [HTTPError], and the JSON body. *)
Inductive HttpOutcome : Type :=
| RequestFailed (message : string)
| Response (status : Z) (http_error : string) (body : ExecResult).

(** The transport, over a state [St] of the outside world. *)
Definition Transport (St : Type) : Type := Payload -> St -> HttpOutcome * St.

Definition _execute_code {St} (post : Transport St)
           (language code input_data : string) (st : St) : ExecResult * St :=
  let payload := {| language := language; code := code; payload_input := input_data |} in
  match post payload st with
  | (RequestFailed e, st') => (Error ("Execution service error: " +:+ e), st')
  | (Response status http_error body, st') =>
      if (400 <=? status) && (status <? 600)
      then (Error ("Execution service error: " +:+ http_error), st')
      else (body, st')
  end.

(** *** [test_student_code] *)

Record TestResult : Type := {
  test_case_id : option Z;
  passed : bool;
  expected : option string;
  actual : option string;
  result_input : option string;
  execution_result : ExecResult
}.

(** A Python number: the score is the int [0] or a float. *)
Inductive PyNum : Type :=
| PyInt (n : Z)
| PyFloatV (x : PyFloat.float).

Record GradeSummary : Type := {
  score : PyNum;
  total_tests : Z;
  passed_tests : Z;
  detailed_results : list TestResult
}.

(** One turn of the [for] loop. *)
Definition run_test {St} (post : Transport St) (problem_data : ProblemData)
           (student_code language : string) (test_case : TestCase) (st : St)
  : TestResult * St :=
  let '(execution_result, st') :=
    _execute_code post language student_code (default "" (input test_case)) st in
  let passed :=
    _compare_outputs (default "" (get_stdout execution_result))
                     (default "" (expected_output test_case))
                     (default "exact" (output_type problem_data)) in
  ({| test_case_id := id test_case;
      passed := passed;
      expected := expected_output test_case;
      actual := get_stdout execution_result;
      result_input := input test_case;
      execution_result := execution_result |}, st').

(** The [for] loop: [results] in the order of the appends. *)
Fixpoint run_tests {St} (post : Transport St) (problem_data : ProblemData)
         (student_code language : string) (cases : list TestCase) (st : St)
  : list TestResult * St :=
  match cases with
  | [] => ([], st)
  | test_case :: rest =>
      let '(r, st1) := run_test post problem_data student_code language test_case st in
      let '(rs, st2) := run_tests post problem_data student_code language rest st1 in
      (r :: rs, st2)
  end.

(** [sum(1 for r in results if r['passed'])] *)
Fixpoint count_passed (results : list TestResult) : Z :=
  match results with
  | [] => 0
  | r :: rest => (if passed r then 1 else 0) + count_passed rest
  end.

Definition len (results : list TestResult) : Z := Z.of_nat (length results).

(** [(passed_count / len(results)) * 100 if results else 0] *)
Definition total_score (passed_count : Z) (results : list TestResult) : Outcome PyNum :=
  match results with
  | [] => Return (PyInt 0)
  | _ :: _ =>
      match PyFloat.int_truediv passed_count (len results) with
      | Some q => Return (PyFloatV (PyFloat.mul_int q 100))
      | None => Raise "division by zero"
      end
  end.

Definition test_student_code {St} (post : Transport St) (problem_data : ProblemData)
           (student_code language : string) (st : St)
  : Outcome GradeSummary * St :=
  let cases := default [] (test_cases problem_data) in
  let '(results, st') := run_tests post problem_data student_code language cases st in
  let passed_count := count_passed results in
  match total_score passed_count results with
  | Return s =>
      (Return {| score := s;
                 total_tests := len results;
                 passed_tests := passed_count;
                 detailed_results := results |}, st')
  | Raise e => (Raise e, st')
  end.

(** The grading service talking to an executor that runs in the world
    [Executor.World]; [post_env] gives the environment that the
    executor meets when it serves a payload. *)
Definition via_executor (post_env : Payload -> Executor.Env) : Transport Executor.World :=
  fun payload w =>
    let data := Some {| Executor.req_language := Some (language payload);
                        Executor.req_code := Some (code payload);
                        Executor.req_input := Some (payload_input payload) |} in
    let '((status, body), w') := Executor.endpoint_execute (post_env payload) data w in
    (Response status (if status <? 500 then "Client Error" else "Server Error") body, w').

End Grader.

(** ** Sample runs *)

Module Scenario.

Import Executor Grader.

Definition newline : string := String (ascii_of_N 10) EmptyString.

(** An executor that answers every request with a clean run of a program
    that copies its input to its output. *)
Definition echo : Transport unit :=
  fun payload st => (Response 200 "" (Completed (payload_input payload) "" 0 true), st).

(** No executor is listening. *)
Definition unreachable : Transport unit :=
  fun payload st => (RequestFailed "Connection refused", st).

(** An executor whose answer depends on the input of the test. *)
Definition mixed : Transport unit :=
  fun payload st =>
    if String.eqb (payload_input payload) "a" then
      (Response 200 "" (Completed ("A" +:+ newline) "" 0 true), st)
    else if String.eqb (payload_input payload) "b" then
      (RequestFailed "Read timed out", st)
    else if String.eqb (payload_input payload) "c" then
      (Response 500 "500 Server Error" (Error "Internal Server Error"), st)
    else if String.eqb (payload_input payload) "d" then
      (Response 200 "" (Completed "" "Traceback" 1 false), st)
    else
      (Response 200 "" (Error "Execution timeout"), st).

Definition case (n : Z) (given wanted : string) : TestCase :=
  {| id := Some n; input := Some given; expected_output := Some wanted |}.

Definition problem (mode : string) (cases : list TestCase) : ProblemData :=
  {| test_cases := Some cases; output_type := Some mode |}.

(** Four tests against the echo program; the last one expects something
    else than its input. *)
Definition three_of_four : ProblemData :=
  problem "exact" [case 1 "1" "1"; case 2 "2" "2"; case 3 "3" "3"; case 4 "4" "5"].

(** One test whose expected output is empty. *)
Definition expects_nothing : ProblemData := problem "exact" [case 1 "x" ""].

Definition five_outcomes : ProblemData :=
  problem "exact" [case 1 "a" "A"; case 2 "b" "B"; case 3 "c" "C";
                   case 4 "d" "D"; case 5 "e" "E"].

Definition empty_world : World := {| files := ∅; procs := ∅; log := [] |}.

Definition content (fs : gmap string string) (path : string) : string :=
  default "" (fs !! path).

(** Compilers that succeed: [g++] writes the file named after [-o];
    [javac] writes, next to the source, the class file of the class
    [Main] that the source declares. *)
Definition compilers_succeed (cmd : list string) (fs : gmap string string) : CompileOutcome :=
  match cmd with
  | [tool; src; _; out] =>
      if String.eqb tool "g++"
      then CompileExit 0 "" {[ out := "binary of " +:+ content fs src ]}
      else CompileNotStarted "No such file or directory"
  | [tool; src] =>
      if String.eqb tool "javac"
      then CompileExit 0 "" {[ "/tmp/executions/Main.class" := "class of " +:+ content fs src ]}
      else CompileNotStarted "No such file or directory"
  | _ => CompileNotStarted "No such file or directory"
  end.


(** Compilers that reject the source. *)
Definition compilers_fail (cmd : list string) (fs : gmap string string) : CompileOutcome :=
  CompileExit 1 "error: expected ';'" ∅.

(** A program, started as process 100, that ends as [t]. *)
Definition ends (out err : string) (t : Termination)
  : list string -> string -> gmap string string -> RunOutcome :=
  fun _ _ _ => Ran 100%positive ∅ out err t.

(** A program, started as process 100, that starts process 101 and is
    still running at the deadline. *)
Definition hangs : list string -> string -> gmap string string -> RunOutcome :=
  fun _ _ _ => DeadlineExpired 100%positive {[ 101%positive ]}.

Definition env_with (name : string) (comp : list string -> gmap string string -> CompileOutcome)
           (prog : list string -> string -> gmap string string -> RunOutcome) : Env :=
  {| tmp_names := [name]; compiler := comp; program := prog |}.

(** A Java submission that does not compile, graded through the
    executor against one test that expects no output. *)
Definition broken_java : Transport World :=
  via_executor (fun _ => env_with "abcd1234" compilers_fail (ends "" "" (Exited 0))).

(** The source file of a Python submission when the random name is
    [abcd1234]. *)
Definition py_source : string := "/tmp/executions/tmpabcd1234.py".

End Scenario.

(** ** Vocabulary of the statements *)

(** Whether a text begins, or ends, with white space. *)
Definition first_is_space (s : string) : bool :=
  match s with
  | EmptyString => false
  | String c _ => PyStr.is_space c
  end.

Fixpoint last_is_space (s : string) : bool :=
  match s with
  | EmptyString => false
  | String c EmptyString => PyStr.is_space c
  | String _ t => last_is_space t
  end.

(** How the [passed] flag of one result is decided. *)
Definition passed_by_comparison (problem_data : Grader.ProblemData)
           (r : Grader.TestResult) : Prop :=
  Grader.passed r =
  Grader._compare_outputs (default "" (get_stdout (Grader.execution_result r)))
                          (default "" (Grader.expected r))
                          (default "exact" (Grader.output_type problem_data)).

(** The requests to spawn the submitted program, and the kill requests,
    found in a log. *)
Definition spawns (l : list Executor.Event) : list (list string) :=
  omap (fun e => match e with Executor.EvSpawn cmd => Some cmd | _ => None end) l.

Definition kills (l : list Executor.Event) : list Executor.pid :=
  omap (fun e => match e with Executor.EvKill p => Some p | _ => None end) l.

(** The call got as far as running [cmd], built for the source file
    [temp_file], in world [w1], and the program behaved as [outcome]. *)
Definition reaches_run (env : Executor.Env) (language code input_data : string)
           (w : Executor.World) (temp_file : string) (cmd : list string)
           (w1 : Executor.World) (outcome : Executor.RunOutcome) : Prop :=
  exists lang_info,
    Executor.lookup_language language = Some lang_info /\
    Executor.first_unused (Executor.files w) ("." +:+ Executor.extension lang_info)
                          (Executor.tmp_names env) = Some temp_file /\
    Executor._build_command env language temp_file
                            (Executor.write_source temp_file code w) = (Return cmd, w1) /\
    Executor.program env cmd input_data (Executor.files w1) = outcome.

(** The call got as far as compiling [temp_file] with [cmd], and the
    compiler behaved as [outcome]. *)
Definition reaches_compile (env : Executor.Env) (language code : string)
           (w : Executor.World) (temp_file : string) (cmd : list string)
           (outcome : Executor.CompileOutcome) : Prop :=
  exists lang_info,
    Executor.lookup_language language = Some lang_info /\
    Executor.first_unused (Executor.files w) ("." +:+ Executor.extension lang_info)
                          (Executor.tmp_names env) = Some temp_file /\
    ((language = "java" /\ cmd = ["javac"; temp_file]) \/
     (language = "cpp" /\
      cmd = ["g++"; temp_file; "-o"; PyStr.replace ".cpp" ".out" temp_file])) /\
    Executor.compiler env cmd (Executor.files (Executor.write_source temp_file code w))
    = outcome.

(** Whether the kernel ended the child because a limit was exceeded. *)
Definition killed_over_limit (t : Executor.Termination) : bool :=
  match t with
  | Executor.Signaled _ over_limit => over_limit
  | Executor.Exited _ => false
  end.

(** A text without a dot. *)
Fixpoint no_dot (s : string) : bool :=
  match s with
  | EmptyString => true
  | String c t => negb (Ascii.eqb c ".") && no_dot t
  end.

Definition tmp_prefix : string := "/tmp/executions/tmp".

(** A transport that also keeps the payloads it was given, oldest
    first. *)
Definition recording {St : Type} (post : Grader.Transport St)
  : Grader.Transport (list Grader.Payload * St) :=
  fun payload seen_st =>
    let '(out, st') := post payload (snd seen_st) in
    (out, ((fst seen_st ++ [payload])%list, st')).

(** The payload that [_execute_code] builds for one test case. *)
Definition payload_of (student_code language : string) (test_case : Grader.TestCase)
  : Grader.Payload :=
  {| Grader.language := language;
     Grader.code := student_code;
     Grader.payload_input := default "" (Grader.input test_case) |}.

(** The test of the [/execute] endpoint on the value of
    [request.json]: it is an object (not [null]) that has both a
    language and a code. *)
Definition has_language_and_code (data : option Executor.Request) : bool :=
  match data with
  | Some r =>
      match Executor.req_language r, Executor.req_code r with
      | Some _, Some _ => true
      | _, _ => false
      end
  | None => false
  end.

(** A text without a slash. *)
Fixpoint no_slash (s : string) : bool :=
  match s with
  | EmptyString => true
  | String c t => negb (Ascii.eqb c "/") && no_slash t
  end.

(** The events of a log that come after its last request to start a
    program (all of them when there is none). *)
Fixpoint since_spawn_from (acc : list Executor.Event) (l : list Executor.Event)
  : list Executor.Event :=
  match l with
  | [] => acc
  | Executor.EvSpawn _ :: rest => since_spawn_from [] rest
  | e :: rest => since_spawn_from (acc ++ [e])%list rest
  end.

Definition since_spawn (l : list Executor.Event) : list Executor.Event :=
  since_spawn_from [] l.

(** Wall-clock time, in milliseconds. [communicate(input,
    timeout=MAX_EXECUTION_TIME)] raises [TimeoutExpired] once the
    timeout has gone by: this is how long it has waited then. *)
Definition deadline_ms : Z := 1000 * Executor.MAX_EXECUTION_TIME.

(** The time that the system takes to serve the requests [events], none
    of which waits for a process, when it serves a request [e] in
    [latency e] milliseconds. *)
Fixpoint serving_time (latency : Executor.Event -> Z) (events : list Executor.Event) : Z :=
  match events with
  | [] => 0
  | e :: rest => latency e + serving_time latency rest
  end.

(** The time that goes by while [waited] milliseconds are spent in
    [communicate] and the requests [events] are served. *)
Definition elapsed (latency : Executor.Event -> Z) (waited : Z)
           (events : list Executor.Event) : Z :=
  waited + serving_time latency events.

(** A path of a file that lies in [/tmp/executions] itself, not in a
    directory below it. *)
Definition in_executions_dir (path : string) : Prop :=
  exists base, path = "/tmp/executions/" +:+ base /\ no_slash base = true.

(** A request that creates or unlinks a file names [path]. *)
Definition names_only (path : string) (e : Executor.Event) : Prop :=
  match e with
  | Executor.EvCreate p | Executor.EvUnlink p => p = path
  | _ => True
  end.

(** The compile requests found in a log. *)
Definition compiles (l : list Executor.Event) : list (list string) :=
  omap (fun e => match e with Executor.EvCompile cmd => Some cmd | _ => None end) l.

(** * Properties *)

(** ** Strings *)

Section StringFacts.

Import PyStr.

Lemma append_assoc (a b c : string) : (a +:+ b) +:+ c = a +:+ (b +:+ c).
Proof. induction a as [|x a IH]; simpl; [reflexivity | now rewrite IH]. Qed.

Lemma append_empty_r (a : string) : a +:+ "" = a.
Proof. induction a as [|x a IH]; simpl; [reflexivity | now rewrite IH]. Qed.

Lemma starts_with_spec (p s : string) :
  starts_with p s = true <-> exists post, s = p +:+ post.
Proof.
  revert s. induction p as [|a p IH]; intros s; simpl.
  - split; [intros _; now exists s | reflexivity].
  - destruct s as [|b s].
    + split; [discriminate | intros [post H]; discriminate].
    + rewrite andb_true_iff, Ascii.eqb_eq, IH. split.
      * intros [-> [post ->]]. now exists post.
      * intros [post H]. injection H as -> ->. split; [reflexivity | now exists post].
Qed.

Lemma starts_with_refl (s : string) : starts_with s s = true.
Proof. apply starts_with_spec. exists "". now rewrite append_empty_r. Qed.

(** [needle in hay] holds exactly when [hay] is some text, then
    [needle], then some text. *)
Lemma contains_spec (needle hay : string) :
  contains needle hay = true <-> exists pre post, hay = pre +:+ needle +:+ post.
Proof.
  induction hay as [|c hay IH]; simpl.
  - rewrite orb_false_r, starts_with_spec. split.
    + intros [post H]. now exists "", post.
    + intros [pre [post H]]. destruct pre; [now exists post | discriminate].
  - rewrite orb_true_iff, starts_with_spec, IH. split.
    + intros [[post H] | [pre [post H]]].
      * now exists "", post.
      * exists (String c pre), post. simpl. now rewrite H.
    + intros [pre [post H]]. destruct pre as [|x pre]; simpl in H.
      * left. now exists post.
      * right. injection H as _ H. now exists pre, post.
Qed.

Lemma contains_refl (s : string) : contains s s = true.
Proof. destruct s; simpl; [reflexivity|]. now rewrite Ascii.eqb_refl, starts_with_refl. Qed.

Lemma contains_empty_hay (needle : string) :
  contains needle "" = String.eqb needle "".
Proof. destruct needle; reflexivity. Qed.

Lemma lower_empty (s : string) : String.eqb (lower s) "" = String.eqb s "".
Proof. destruct s; reflexivity. Qed.

(** *** [strip] removes exactly the surrounding white space *)

Lemma lstrip_split (s : string) :
  exists l, s = l +:+ lstrip s /\ all_space l = true.
Proof.
  induction s as [|c s [l [H Hl]]]; simpl.
  - now exists "".
  - destruct (is_space c) eqn:Hc.
    + exists (String c l). simpl. rewrite Hc, Hl. split; [now rewrite <- H | reflexivity].
    + now exists "".
Qed.

Lemma rstrip_split (s : string) :
  exists r, s = rstrip s +:+ r /\ all_space r = true.
Proof.
  induction s as [|c s [r [H Hr]]]; simpl.
  - now exists "".
  - destruct (rstrip s) as [|d t] eqn:Ht.
    + simpl in H. subst r. destruct (is_space c) eqn:Hc.
      * exists (String c s). simpl. now rewrite Hc, Hr.
      * exists s. now split.
    + exists r. simpl. split; [now rewrite H | assumption].
Qed.

Lemma lstrip_first (s : string) : first_is_space (lstrip s) = false.
Proof.
  induction s as [|c s IH]; simpl; [reflexivity|].
  destruct (is_space c) eqn:Hc; [assumption | simpl; assumption].
Qed.

Lemma rstrip_last (s : string) : last_is_space (rstrip s) = false.
Proof.
  induction s as [|c s IH]; simpl; [reflexivity|].
  destruct (rstrip s) as [|d t] eqn:Ht.
  - destruct (is_space c) eqn:Hc; simpl; [reflexivity | assumption].
  - exact IH.
Qed.

Lemma rstrip_first (s : string) :
  first_is_space s = false -> first_is_space (rstrip s) = false.
Proof.
  destruct s as [|c s]; simpl; [reflexivity|]. intros Hc.
  destruct (rstrip s); [rewrite Hc|]; simpl; assumption.
Qed.

Lemma strip_split (s : string) :
  exists l r, s = l +:+ strip s +:+ r /\ all_space l = true /\ all_space r = true.
Proof.
  destruct (lstrip_split s) as [l [Hl Hsl]].
  destruct (rstrip_split (lstrip s)) as [r [Hr Hsr]].
  exists l, r. unfold strip. now rewrite <- Hr, <- Hl.
Qed.

Lemma strip_ends (s : string) :
  first_is_space (strip s) = false /\ last_is_space (strip s) = false.
Proof.
  unfold strip. split; [apply rstrip_first, lstrip_first | apply rstrip_last].
Qed.

End StringFacts.

(** ** The comparison engine: [_compare_outputs] *)

Section Compare.

Import PyStr Grader.

Lemma compare_exact (actual expected : string) :
  _compare_outputs actual expected "exact" = String.eqb (strip actual) (strip expected).
Proof. reflexivity. Qed.

Lemma compare_numeric (actual expected : string) :
  _compare_outputs actual expected "numeric" =
  match PyFloat.of_string (strip actual), PyFloat.of_string (strip expected) with
  | Some x, Some y => PyFloat.eqb x y
  | _, _ => _compare_outputs actual expected "exact"
  end.
Proof.
  unfold _compare_outputs. simpl.
  destruct (PyFloat.of_string (strip actual)), (PyFloat.of_string (strip expected));
    reflexivity.
Qed.

Lemma compare_contains (actual expected : string) :
  _compare_outputs actual expected "contains" =
  contains (lower (strip expected)) (lower (strip actual)).
Proof. reflexivity. Qed.

Lemma compare_other (actual expected mode : string) :
  mode <> "exact" -> mode <> "numeric" -> mode <> "contains" ->
  _compare_outputs actual expected mode = _compare_outputs actual expected "exact".
Proof.
  intros H1 H2 H3. unfold _compare_outputs.
  apply String.eqb_neq in H1, H2, H3. rewrite H1, H2, H3. reflexivity.
Qed.

(** With nothing on the actual side, every mode accepts exactly the
    expected outputs that are empty once trimmed. *)
Lemma compare_no_output (expected mode : string) :
  _compare_outputs "" expected mode = String.eqb (strip expected) "".
Proof.
  unfold _compare_outputs. change (strip "") with "".
  assert (Hsym : String.eqb "" (strip expected) = String.eqb (strip expected) "")
    by apply String.eqb_sym.
  change (PyFloat.of_string "") with (@None PyFloat.float).
  change (lower "") with "". rewrite contains_empty_hay, lower_empty, Hsym.
  destruct (String.eqb mode "exact"), (String.eqb mode "numeric"),
    (String.eqb mode "contains"); reflexivity.
Qed.

End Compare.

(** C6. [_compare_outputs] works on both sides with the surrounding white
    space removed. On those, [exact] is string equality; [numeric] is
    equality of the two floats when both sides parse as floats and the
    [exact] answer when either does not; [contains] holds when the
    lower-cased expected text occurs inside the lower-cased actual text;
    any other mode gives the [exact] answer. The three sample
    comparisons come out as stated. *)
Theorem C6_compare_outputs_modes (actual expected mode : string) :
  let a := PyStr.strip actual in
  let e := PyStr.strip expected in
  (exists la ra le re,
      actual = la +:+ a +:+ ra /\ expected = le +:+ e +:+ re /\
      PyStr.all_space la = true /\ PyStr.all_space ra = true /\
      PyStr.all_space le = true /\ PyStr.all_space re = true /\
      first_is_space a = false /\ last_is_space a = false /\
      first_is_space e = false /\ last_is_space e = false) /\
  (Grader._compare_outputs actual expected "exact" = true <-> a = e) /\
  Grader._compare_outputs actual expected "numeric" =
    match PyFloat.of_string a, PyFloat.of_string e with
    | Some x, Some y => PyFloat.eqb x y
    | _, _ => Grader._compare_outputs actual expected "exact"
    end /\
  (Grader._compare_outputs actual expected "contains" = true <->
   exists pre post, PyStr.lower a = pre +:+ PyStr.lower e +:+ post) /\
  (mode <> "exact" -> mode <> "numeric" -> mode <> "contains" ->
   Grader._compare_outputs actual expected mode =
   Grader._compare_outputs actual expected "exact") /\
  Grader._compare_outputs "3.0" "3" "numeric" = true /\
  Grader._compare_outputs "3.0" "3" "exact" = false /\
  Grader._compare_outputs "The Answer is 42" "42" "contains" = true.
Proof.
  intros a e. split; [|split; [|split; [|split; [|split; [|repeat split]]]]].
  - destruct (strip_split actual) as [la [ra [Ha [Hla Hra]]]].
    destruct (strip_split expected) as [le [re [He [Hle Hre]]]].
    destruct (strip_ends actual) as [Fa La], (strip_ends expected) as [Fe Le].
    exists la, ra, le, re. repeat split; assumption.
  - rewrite compare_exact. apply String.eqb_eq.
  - apply compare_numeric.
  - rewrite compare_contains. apply contains_spec.
  - apply compare_other.
Qed.

Lemma C6_compare_outputs_modes_witness :
  let printed := " 7" +:+ Scenario.newline in
  Grader._compare_outputs printed "7" "fuzzy" = Grader._compare_outputs printed "7" "exact"
  /\ Grader._compare_outputs printed "7" "fuzzy" = true.
Proof.
  intros printed. split; [|reflexivity].
  apply (C6_compare_outputs_modes printed "7" "fuzzy"); discriminate.
Defined.

(** Numeric mode on a few pairs: two spellings of one number, two
    decimals with the same nearest float, the two zeros, a text that is
    no number on both sides, and a number against a text. *)
Example numeric_samples :
  Grader._compare_outputs "1e2" "100.0" "numeric" = true /\
  Grader._compare_outputs "0.1" "0.10000000000000001" "numeric" = true /\
  Grader._compare_outputs "-0" "0" "numeric" = true /\
  Grader._compare_outputs "1_000" " 1000. " "numeric" = true /\
  Grader._compare_outputs "inf" "1e999" "numeric" = true /\
  Grader._compare_outputs "n/a" "n/a" "numeric" = true /\
  Grader._compare_outputs "3" "three" "numeric" = false /\
  Grader._compare_outputs "0.1" "0.2" "numeric" = false.
Proof. repeat split. Qed.

(** C10. The string [nan] parses as a float and [numeric] mode rejects it
    against itself, while [exact] and [contains] accept every string
    against itself. *)
Theorem C10_numeric_not_reflexive :
  PyFloat.of_string "nan" = Some S754_nan /\
  Grader._compare_outputs "nan" "nan" "numeric" = false /\
  (exists s, PyFloat.of_string s <> None /\
             Grader._compare_outputs s s "numeric" = false) /\
  (forall s, Grader._compare_outputs s s "exact" = true) /\
  (forall s, Grader._compare_outputs s s "contains" = true).
Proof.
  split; [reflexivity|]. split; [reflexivity|]. split; [|split].
  - exists "nan". split; [discriminate | reflexivity].
  - intros s. rewrite compare_exact. apply String.eqb_refl.
  - intros s. rewrite compare_contains. apply contains_refl.
Qed.

(** ** The grading loop: [test_student_code] *)

Section Grading.

Import Grader.

Context {St : Type} (post : Transport St) (problem_data : ProblemData)
        (student_code language : string).

Let run := run_tests post problem_data student_code language.
Let one := run_test post problem_data student_code language.

Lemma run_tests_cons (test_case : TestCase) (rest : list TestCase) (st : St) :
  run (test_case :: rest) st =
  (fst (one test_case st) :: fst (run rest (snd (one test_case st))),
   snd (run rest (snd (one test_case st)))).
Proof.
  unfold run, one. simpl.
  destruct (run_test post problem_data student_code language test_case st) as [r st1].
  simpl. destruct (run_tests post problem_data student_code language rest st1).
  reflexivity.
Qed.

Lemma run_tests_app (l1 l2 : list TestCase) (st : St) :
  run (l1 ++ l2)%list st =
  ((fst (run l1 st) ++ fst (run l2 (snd (run l1 st))))%list,
   snd (run l2 (snd (run l1 st)))).
Proof.
  revert st. induction l1 as [|tc l1 IH]; intros st.
  - simpl. destruct (run l2 st). reflexivity.
  - change ((tc :: l1) ++ l2)%list with (tc :: (l1 ++ l2))%list.
    rewrite !run_tests_cons, IH. reflexivity.
Qed.

Lemma run_tests_length (cases : list TestCase) (st : St) :
  length (fst (run cases st)) = length cases.
Proof.
  revert st. induction cases as [|tc cases IH]; intros st; [reflexivity|].
  rewrite run_tests_cons. simpl. now rewrite IH.
Qed.

Lemma run_test_fields (test_case : TestCase) (st : St) :
  test_case_id (fst (one test_case st)) = id test_case /\
  expected (fst (one test_case st)) = expected_output test_case /\
  result_input (fst (one test_case st)) = input test_case.
Proof.
  unfold one, run_test.
  destruct (_execute_code post language student_code (default "" (input test_case)) st).
  simpl. auto.
Qed.

Lemma run_tests_fields (cases : list TestCase) (st : St) :
  map test_case_id (fst (run cases st)) = map id cases /\
  map expected (fst (run cases st)) = map expected_output cases /\
  map result_input (fst (run cases st)) = map input cases.
Proof.
  revert st. induction cases as [|tc cases IH]; intros st; [simpl; auto|].
  rewrite run_tests_cons. simpl.
  destruct (run_test_fields tc st) as [-> [-> ->]].
  destruct (IH (snd (one tc st))) as [-> [-> ->]]. auto.
Qed.

(** The result at position [i] is the one computed for test case [i], in
    the state that the first [i] executions left behind. *)
Lemma run_tests_lookup (cases : list TestCase) (st : St) (i : nat) (test_case : TestCase) :
  cases !! i = Some test_case ->
  fst (run cases st) !! i = Some (fst (one test_case (snd (run (take i cases) st)))).
Proof.
  intros H. rewrite <- (take_drop_middle cases i test_case H) at 1.
  rewrite run_tests_app. simpl fst.
  assert (Hlen : length (fst (run (take i cases) st)) = i).
  { rewrite run_tests_length, length_take. apply lookup_lt_Some in H. lia. }
  rewrite lookup_app_r by lia. rewrite Hlen, Nat.sub_diag, run_tests_cons.
  reflexivity.
Qed.

Lemma run_test_passed (test_case : TestCase) (st : St) :
  passed_by_comparison problem_data (fst (one test_case st)).
Proof.
  unfold passed_by_comparison, one, run_test.
  destruct (_execute_code post language student_code (default "" (input test_case)) st).
  reflexivity.
Qed.

Lemma run_tests_passed (cases : list TestCase) (st : St) :
  Forall (passed_by_comparison problem_data) (fst (run cases st)).
Proof.
  revert st. induction cases as [|tc cases IH]; intros st; [constructor|].
  rewrite run_tests_cons. simpl. constructor; [apply run_test_passed | apply IH].
Qed.

Lemma count_passed_bounds (results : list TestResult) :
  0 <= count_passed results <= len results.
Proof.
  unfold len. induction results as [|r results IH]; simpl length; simpl count_passed; [lia|].
  destruct (passed r); lia.
Qed.

Lemma total_score_returns (passed_count : Z) (results : list TestResult) :
  exists s, total_score passed_count results = Return s /\
    (len results = 0 -> s = PyInt 0) /\
    (len results <> 0 ->
     exists q, PyFloat.int_truediv passed_count (len results) = Some q /\
               s = PyFloatV (PyFloat.mul_int q 100)).
Proof.
  destruct results as [|r results].
  - exists (PyInt 0). split; [reflexivity|]. split; [reflexivity|].
    intros H. now elim H.
  - unfold total_score.
    assert (Hpos : 0 < len (r :: results)) by (unfold len; simpl length; lia).
    destruct (PyFloat.int_truediv passed_count (len (r :: results))) as [q|] eqn:Hq.
    + exists (PyFloatV (PyFloat.mul_int q 100)). split; [reflexivity|].
      split; [lia|]. intros _. now exists q.
    + exfalso. unfold PyFloat.int_truediv in Hq.
      destruct (len (r :: results)), passed_count; (discriminate || lia).
Qed.

(** The summary of a run: the call returns, and its fields are these. *)
Lemma test_student_code_summary (st : St) :
  let cases := default [] (test_cases problem_data) in
  exists s,
    test_student_code post problem_data student_code language st =
      (Return s, snd (run cases st)) /\
    detailed_results s = fst (run cases st) /\
    total_tests s = len (detailed_results s) /\
    passed_tests s = count_passed (detailed_results s) /\
    total_score (passed_tests s) (detailed_results s) = Return (score s).
Proof.
  intros cases. unfold test_student_code. fold cases. fold run.
  destruct (run cases st) as [results st'] eqn:Hrun. simpl.
  destruct (total_score_returns (count_passed results) results) as [s [Hs _]].
  rewrite Hs. eexists. split; [reflexivity|]. simpl. auto.
Qed.

End Grading.

(** ** The executor: [execute_code] *)

Section Execution.

Import Executor.

Lemma execute_code_run (env : Env) (language code input_data : string) (w : World)
      (temp_file : string) (cmd : list string) (w1 : World) (outcome : RunOutcome) :
  reaches_run env language code input_data w temp_file cmd w1 outcome ->
  execute_code env language code input_data w =
  match outcome with
  | RunRaised e alive =>
      (Return (Error ("Execution failed: " +:+ e)),
       cleanup temp_file (with_procs (procs w1 ∪ alive) (record (EvSpawn cmd) w1)))
  | Ran child left_behind stdout stderr t =>
      (Return (Completed stdout stderr (returncode t) (returncode t =? 0)),
       cleanup temp_file
         (with_procs ((procs w1 ∪ left_behind) ∖ {[child]}) (record (EvSpawn cmd) w1)))
  | DeadlineExpired child descendants =>
      (Return (Error "Execution timeout"),
       cleanup temp_file
         (record (EvKill child)
            (with_procs ((procs w1 ∪ {[child]} ∪ descendants) ∖ {[child]})
               (record (EvSpawn cmd) w1))))
  end.
Proof.
  intros [lang_info [Hl [Hf [Hb Hp]]]]. unfold execute_code. rewrite Hl, Hf.
  unfold build_and_run. rewrite Hb, Hp. destruct outcome; reflexivity.
Qed.

Lemma execute_code_compile_failed (env : Env) (language code input_data : string) (w : World)
      (temp_file : string) (cmd : list string) (rc : Z) (stderr : string)
      (written : gmap string string) :
  reaches_compile env language code w temp_file cmd (CompileExit rc stderr written) ->
  rc <> 0 ->
  execute_code env language code input_data w =
  (Return (Error ("Execution failed: Compilation failed: " +:+ stderr)),
   cleanup temp_file
     (with_files (written ∪ files (write_source temp_file code w))
        (record (EvCompile cmd) (write_source temp_file code w)))).
Proof.
  intros [lang_info [Hl [Hf [Hcmd Hc]]]] Hrc. unfold execute_code. rewrite Hl, Hf.
  unfold build_and_run, _build_command. rewrite Hl.
  apply Z.eqb_neq in Hrc.
  destruct Hcmd as [[-> ->] | [-> ->]]; simpl String.eqb; cbv iota;
    unfold run_compiler; rewrite Hc, Hrc; reflexivity.
Qed.

End Execution.

(** ** Claims about the grading service *)

(** C1 (as amended). For every grading run, the [passed] flag of every
    result is the answer of [_compare_outputs] on the [stdout] of the
    execution result (the empty string when the result has none), the
    expected output and the comparison mode of the problem; the success
    flag and the kind of the outcome are not consulted. When the
    execution result is an error dictionary, [passed] is true exactly
    when the expected output is empty once trimmed. *)
Theorem C1_passed_is_comparison_only {St : Type} (post : Grader.Transport St)
        (problem_data : Grader.ProblemData) (student_code language : string) (st : St) :
  exists s st',
    Grader.test_student_code post problem_data student_code language st = (Return s, st') /\
    Forall (fun r =>
              Grader.passed r =
              Grader._compare_outputs
                (default "" (get_stdout (Grader.execution_result r)))
                (default "" (Grader.expected r))
                (default "exact" (Grader.output_type problem_data)) /\
              (forall message, Grader.execution_result r = Error message ->
                 Grader.passed r =
                 String.eqb (PyStr.strip (default "" (Grader.expected r))) ""))
           (Grader.detailed_results s).
Proof.
  destruct (test_student_code_summary post problem_data student_code language st)
    as [s [Hrun [Hres _]]].
  exists s. eexists. split; [exact Hrun|]. rewrite Hres.
  eapply Forall_impl; [apply run_tests_passed|].
  intros r Hr. unfold passed_by_comparison in Hr. split; [exact Hr|].
  intros message He. rewrite Hr, He. apply compare_no_output.
Qed.

Lemma C1_passed_is_comparison_only_witness :
  exists s,
    fst (Grader.test_student_code Scenario.mixed Scenario.five_outcomes "code" "python" tt)
    = Return s /\
    map Grader.passed (Grader.detailed_results s) = [true; false; false; false; false].
Proof.
  destruct (C1_passed_is_comparison_only Scenario.mixed Scenario.five_outcomes
              "code" "python" tt) as [s [st' [Hrun Hall]]].
  exists s. rewrite Hrun. split; [reflexivity|].
  vm_compute in Hrun. injection Hrun as <- _. reflexivity.
Defined.

(** C1 as stated fails. With no executor reachable, the outcome of the
    only test is an infrastructure error, not a clean run, and yet the
    test counts as passed, because its expected output is empty. The
    same happens when the submission does not compile. *)
Lemma C1_counterexample :
  (exists s r,
     fst (Grader.test_student_code Scenario.unreachable Scenario.expects_nothing
            "code" "python" tt) = Return s /\
     Grader.detailed_results s = [r] /\
     Grader.execution_result r = Error "Execution service error: Connection refused" /\
     get_success (Grader.execution_result r) = None /\
     Grader.passed r = true /\
     Grader.passed_tests s = 1) /\
  (exists s r,
     fst (Grader.test_student_code Scenario.broken_java Scenario.expects_nothing
            "class Main {" "java" Scenario.empty_world) = Return s /\
     Grader.detailed_results s = [r] /\
     Grader.execution_result r
     = Error "Execution failed: Compilation failed: error: expected ';'" /\
     get_success (Grader.execution_result r) = None /\
     Grader.passed r = true /\
     Grader.passed_tests s = 1).
Proof.
  split; vm_compute; (eexists; eexists; repeat split).
Qed.

(** C7. Every grading run returns a summary (no division error): the
    number of tests is the number of results, the number of passed tests
    counts the results flagged as passed, the score is the int [0] when
    there is no test and otherwise the float quotient of the two numbers
    times [100]; with three of four tests passed the score is [75.0]. *)
Theorem C7_score {St : Type} (post : Grader.Transport St)
        (problem_data : Grader.ProblemData) (student_code language : string) (st : St) :
  exists s st',
    Grader.test_student_code post problem_data student_code language st = (Return s, st') /\
    Grader.total_tests s = Z.of_nat (length (default [] (Grader.test_cases problem_data))) /\
    Grader.total_tests s = Z.of_nat (length (Grader.detailed_results s)) /\
    Grader.passed_tests s = Grader.count_passed (Grader.detailed_results s) /\
    0 <= Grader.passed_tests s <= Grader.total_tests s /\
    (Grader.total_tests s = 0 -> Grader.score s = Grader.PyInt 0) /\
    (Grader.total_tests s <> 0 ->
     exists q, PyFloat.int_truediv (Grader.passed_tests s) (Grader.total_tests s) = Some q /\
               Grader.score s = Grader.PyFloatV (PyFloat.mul_int q 100)) /\
    (Grader.total_tests s = 4 -> Grader.passed_tests s = 3 ->
     Grader.score s = Grader.PyFloatV (PyFloat.of_int 75)) /\
    PyFloat.of_string "75.0" = Some (PyFloat.of_int 75).
Proof.
  destruct (test_student_code_summary post problem_data student_code language st)
    as [s [Hrun [Hres [Htot [Hpas Hscore]]]]].
  exists s. eexists. split; [exact Hrun|].
  assert (Hlen : Grader.total_tests s
                 = Z.of_nat (length (default [] (Grader.test_cases problem_data)))).
  { rewrite Htot, Hres. unfold Grader.len. now rewrite run_tests_length. }
  destruct (total_score_returns (Grader.passed_tests s) (Grader.detailed_results s))
    as [v [Hv [Hzero Hpos]]].
  rewrite Hscore in Hv. injection Hv as <-. rewrite <- Htot in Hzero, Hpos.
  split; [exact Hlen|]. split; [exact Htot|]. split; [exact Hpas|].
  split; [rewrite Hpas, Htot; apply count_passed_bounds|].
  split; [exact Hzero|]. split; [exact Hpos|]. split; [|reflexivity].
  intros H4 H3.
  destruct Hpos as [q [Hq ->]]; [lia|].
  rewrite H4, H3 in Hq. vm_compute in Hq. injection Hq as <-. reflexivity.
Qed.

Lemma C7_score_witness :
  exists s,
    fst (Grader.test_student_code Scenario.echo Scenario.three_of_four "code" "python" tt)
    = Return s /\
    Grader.total_tests s = 4 /\ Grader.passed_tests s = 3 /\
    Grader.score s = Grader.PyFloatV (PyFloat.of_int 75).
Proof.
  destruct (C7_score Scenario.echo Scenario.three_of_four "code" "python" tt)
    as [s [st' [Hrun [_ [_ [_ [_ [_ [_ [H75 _]]]]]]]]]].
  exists s. rewrite Hrun. split; [reflexivity|].
  vm_compute in Hrun. injection Hrun as <- _.
  split; [reflexivity|]. split; [reflexivity|]. apply H75; reflexivity.
Defined.

(** C8. Every grading run returns, with one result per test case in the
    order of the test cases: the result at a position carries the id, the
    input and the expected output of the test case at that position and
    is the one computed for that test case after the executions of the
    test cases before it, whatever their outcomes were. *)
Theorem C8_one_result_per_test_case {St : Type} (post : Grader.Transport St)
        (problem_data : Grader.ProblemData) (student_code language : string) (st : St) :
  let cases := default [] (Grader.test_cases problem_data) in
  exists s st',
    Grader.test_student_code post problem_data student_code language st = (Return s, st') /\
    length (Grader.detailed_results s) = length cases /\
    map Grader.test_case_id (Grader.detailed_results s) = map Grader.id cases /\
    map Grader.expected (Grader.detailed_results s) = map Grader.expected_output cases /\
    map Grader.result_input (Grader.detailed_results s) = map Grader.input cases /\
    (forall (i : nat) (test_case : Grader.TestCase),
       cases !! i = Some test_case ->
       Grader.detailed_results s !! i =
       Some (fst (Grader.run_test post problem_data student_code language test_case
                    (snd (Grader.run_tests post problem_data student_code language
                            (take i cases) st))))).
Proof.
  intros cases.
  destruct (test_student_code_summary post problem_data student_code language st)
    as [s [Hrun [Hres _]]].
  fold cases in Hrun, Hres.
  exists s. eexists. split; [exact Hrun|]. rewrite Hres.
  split; [apply run_tests_length|].
  destruct (run_tests_fields post problem_data student_code language cases st)
    as [Hid [Hexp Hin]].
  split; [exact Hid|]. split; [exact Hexp|]. split; [exact Hin|].
  intros i test_case Hi. now apply run_tests_lookup.
Qed.

Lemma C8_one_result_per_test_case_witness :
  exists s,
    fst (Grader.test_student_code Scenario.mixed Scenario.five_outcomes "code" "python" tt)
    = Return s /\
    Grader.execution_result <$> (Grader.detailed_results s !! 4%nat)
    = Some (Error "Execution timeout").
Proof.
  destruct (C8_one_result_per_test_case Scenario.mixed Scenario.five_outcomes
              "code" "python" tt) as [s [st' [Hrun [_ [_ [_ [_ Hat]]]]]]].
  exists s. rewrite Hrun. split; [reflexivity|].
  rewrite (Hat 4%nat (Scenario.case 5 "e" "E")); reflexivity.
Defined.

(** ** Claims about the executor *)

Section ExecutionFacts.

Import Executor.

Lemma spawns_record (e : Event) (w : World) :
  spawns (log (record e w)) =
  (spawns (log w) ++ match e with EvSpawn cmd => [cmd] | _ => [] end)%list.
Proof. unfold spawns. simpl. rewrite omap_app. destruct e; reflexivity. Qed.

Lemma kills_record (e : Event) (w : World) :
  kills (log (record e w)) =
  (kills (log w) ++ match e with EvKill p => [p] | _ => [] end)%list.
Proof. unfold kills. simpl. rewrite omap_app. destruct e; reflexivity. Qed.

Lemma cleanup_files (temp_file : string) (w : World) :
  files (cleanup temp_file w) = delete temp_file (files w).
Proof.
  unfold cleanup. destruct (files w !! temp_file) eqn:H; [reflexivity|].
  symmetry. now apply delete_id.
Qed.

Lemma cleanup_procs (temp_file : string) (w : World) :
  procs (cleanup temp_file w) = procs w.
Proof. unfold cleanup. destruct (files w !! temp_file); reflexivity. Qed.

Lemma cleanup_spawns (temp_file : string) (w : World) :
  spawns (log (cleanup temp_file w)) = spawns (log w).
Proof.
  unfold cleanup. destruct (files w !! temp_file); [|reflexivity].
  rewrite spawns_record. simpl. apply app_nil_r.
Qed.

Lemma cleanup_kills (temp_file : string) (w : World) :
  kills (log (cleanup temp_file w)) = kills (log w).
Proof.
  unfold cleanup. destruct (files w !! temp_file); [|reflexivity].
  rewrite kills_record. simpl. apply app_nil_r.
Qed.

Lemma run_compiler_frame (env : Env) (cmd run_cmd : list string) (w : World) :
  procs (snd (run_compiler env cmd run_cmd w)) = procs w /\
  kills (log (snd (run_compiler env cmd run_cmd w))) = kills (log w) /\
  spawns (log (snd (run_compiler env cmd run_cmd w))) = spawns (log w).
Proof.
  unfold run_compiler. destruct (compiler env cmd (files w)) as [m | rc err written].
  - simpl snd. rewrite kills_record, spawns_record. simpl. now rewrite !app_nil_r.
  - destruct (rc =? 0); simpl snd; unfold with_files; simpl;
      fold (spawns (log w ++ [EvCompile cmd])); fold (kills (log w ++ [EvCompile cmd]));
      unfold spawns, kills; rewrite !omap_app; simpl; now rewrite !app_nil_r.
Qed.

(** Building the command starts and kills no process of the submission. *)
Lemma build_command_frame (env : Env) (language temp_file : string) (w : World) :
  procs (snd (_build_command env language temp_file w)) = procs w /\
  kills (log (snd (_build_command env language temp_file w))) = kills (log w) /\
  spawns (log (snd (_build_command env language temp_file w))) = spawns (log w).
Proof.
  unfold _build_command. destruct (lookup_language language); [|auto].
  destruct (String.eqb language "java"); [apply run_compiler_frame|].
  destruct (String.eqb language "cpp"); [apply run_compiler_frame|]. auto.
Qed.

(** Whatever happens after the source file was written, it is gone when
    the call returns. *)
Lemma source_removed (env : Env) (language code input_data : string) (w : World)
      (lang_info : LangInfo) (temp_file : string) :
  lookup_language language = Some lang_info ->
  first_unused (files w) ("." +:+ extension lang_info) (tmp_names env) = Some temp_file ->
  files (snd (execute_code env language code input_data w)) !! temp_file = None.
Proof.
  intros Hl Hf. unfold execute_code. rewrite Hl, Hf.
  destruct (build_and_run env language temp_file input_data (write_source temp_file code w)).
  simpl. rewrite cleanup_files. apply lookup_delete_eq.
Qed.

(** The name handed out did not exist and is built from a candidate. *)
Lemma first_unused_fresh (fs : gmap string string) (suffix : string)
      (candidates : list string) (path : string) :
  first_unused fs suffix candidates = Some path ->
  fs !! path = None /\ exists name, In name candidates /\ path = tmp_path suffix name.
Proof.
  induction candidates as [|name rest IH]; simpl; [discriminate|].
  destruct (fs !! tmp_path suffix name) eqn:H.
  - intros Hr. destruct (IH Hr) as [Hn [n [Hin Hp]]]. split; [exact Hn|]. exists n. auto.
  - intros [= <-]. split; [exact H|]. exists name. auto.
Qed.

End ExecutionFacts.

(** C2 (as amended). For every execution that spawns the program: when
    the program ends, the result holds the captured output, the captured
    stderr and the return code, with [success] true exactly for return
    code 0; a child ended by a signal, for exceeding a limit or not, gets
    that same result with the negated signal number as return code and
    [success] false; when the deadline expires the result is the error
    [Execution timeout], which differs from every result of a program
    that ended. *)
Theorem C2_result_mapping (env : Executor.Env) (language code input_data : string)
        (w : Executor.World) (temp_file : string) (cmd : list string) (w1 : Executor.World) :
  (forall child left_behind out err t,
     reaches_run env language code input_data w temp_file cmd w1
                 (Executor.Ran child left_behind out err t) ->
     let result := fst (Executor.execute_code env language code input_data w) in
     result = Return (Completed out err (Executor.returncode t)
                                (Executor.returncode t =? 0)) /\
     (Executor.returncode t = 0 -> result = Return (Completed out err 0 true)) /\
     (Executor.returncode t <> 0 ->
      result = Return (Completed out err (Executor.returncode t) false)) /\
     (forall sig over_limit, t = Executor.Signaled sig over_limit -> sig <> 0 ->
      result = Return (Completed out err (- sig) false))) /\
  (forall child descendants,
     reaches_run env language code input_data w temp_file cmd w1
                 (Executor.DeadlineExpired child descendants) ->
     fst (Executor.execute_code env language code input_data w)
     = Return (Error "Execution timeout") /\
     forall out err rc ok, Error "Execution timeout" <> Completed out err rc ok).
Proof.
  split.
  - intros child left_behind out err t H result. subst result.
    rewrite (execute_code_run _ _ _ _ _ _ _ _ _ H). simpl fst.
    split; [reflexivity|]. split; [|split].
    + intros ->. reflexivity.
    + intros Hne. apply Z.eqb_neq in Hne. now rewrite Hne.
    + intros sig over_limit -> Hsig. simpl.
      assert (Hne : (- sig =? 0) = false) by (apply Z.eqb_neq; lia).
      now rewrite Hne.
  - intros child descendants H.
    rewrite (execute_code_run _ _ _ _ _ _ _ _ _ H). split; [reflexivity|]. discriminate.
Qed.

Section LogFacts.

Import Executor.

Lemma since_spawn_from_app (acc l1 l2 : list Event) :
  since_spawn_from acc (l1 ++ l2)%list = since_spawn_from (since_spawn_from acc l1) l2.
Proof.
  revert acc. induction l1 as [|e l1 IH]; intros acc; [reflexivity|].
  destruct e; simpl; apply IH.
Qed.

Lemma serving_time_bound (latency : Event -> Z) (bound : Z) (events : list Event) :
  (forall e, 0 <= latency e <= bound) ->
  0 <= serving_time latency events <= Z.of_nat (length events) * bound.
Proof.
  intros H. induction events as [|e events IH]; [simpl; lia|].
  simpl serving_time. specialize (H e).
  replace (Z.of_nat (length (e :: events))) with (1 + Z.of_nat (length events))
    by (simpl length; lia).
  lia.
Qed.

Lemma run_compiler_keeps (env : Env) (cmd run_cmd : list string) (w : World) (path : string) :
  is_Some (files w !! path) ->
  is_Some (files (snd (run_compiler env cmd run_cmd w)) !! path).
Proof.
  intros H. unfold run_compiler.
  destruct (compiler env cmd (files w)) as [m | rc err written]; [exact H|].
  destruct (rc =? 0); simpl; apply lookup_union_is_Some; now right.
Qed.

Lemma build_command_keeps (env : Env) (language temp_file : string) (w : World)
      (path : string) :
  is_Some (files w !! path) ->
  is_Some (files (snd (_build_command env language temp_file w)) !! path).
Proof.
  intros H. unfold _build_command. destruct (lookup_language language); [|exact H].
  destruct (String.eqb language "java"); [now apply run_compiler_keeps|].
  destruct (String.eqb language "cpp"); [now apply run_compiler_keeps | exact H].
Qed.

Lemma cleanup_log_present (temp_file : string) (w : World) :
  is_Some (files w !! temp_file) ->
  log (cleanup temp_file w) = (log w ++ [EvUnlink temp_file])%list.
Proof. intros [c Hc]. unfold cleanup. rewrite Hc. reflexivity. Qed.

Lemma cleanup_log (temp_file : string) (w : World) :
  exists tail, log (cleanup temp_file w) = (log w ++ tail)%list /\
               Forall (names_only temp_file) tail.
Proof.
  unfold cleanup. destruct (files w !! temp_file).
  - exists [EvUnlink temp_file]. split; [reflexivity|]. repeat constructor.
  - exists []. split; [now rewrite app_nil_r | constructor].
Qed.

(** The source file is there after the command has been built. *)
Lemma source_present (env : Env) (language temp_file code : string) (w : World) :
  is_Some (files (snd (_build_command env language temp_file
                         (write_source temp_file code w))) !! temp_file).
Proof.
  apply build_command_keeps. unfold write_source. simpl.
  rewrite lookup_insert_eq. now eexists.
Qed.

Lemma run_compiler_log (env : Env) (cmd run_cmd : list string) (w : World) :
  log (snd (run_compiler env cmd run_cmd w)) = (log w ++ [EvCompile cmd])%list.
Proof.
  unfold run_compiler. destruct (compiler env cmd (files w)) as [m | rc err written];
    [reflexivity|]. destruct (rc =? 0); reflexivity.
Qed.

(** What building the command adds to the log: one compile request for
    Java and for C++, nothing otherwise. *)
Lemma build_command_log (env : Env) (language temp_file : string) (w : World) :
  log (snd (_build_command env language temp_file w)) =
  (log w ++
   (if String.eqb language "java" then [EvCompile ["javac"; temp_file]]
    else if String.eqb language "cpp"
         then [EvCompile ["g++"; temp_file; "-o"; PyStr.replace ".cpp" ".out" temp_file]]
         else []))%list.
Proof.
  unfold _build_command.
  destruct (String.eqb language "java") eqn:Hj.
  - apply String.eqb_eq in Hj. subst language. simpl. apply run_compiler_log.
  - destruct (String.eqb language "cpp") eqn:Hc.
    + apply String.eqb_eq in Hc. subst language. simpl. apply run_compiler_log.
    + destruct (lookup_language language); simpl; now rewrite app_nil_r.
Qed.

Lemma build_and_run_log (env : Env) (language temp_file input_data : string) (w : World) :
  exists tail,
    log (snd (build_and_run env language temp_file input_data w))
    = (log (snd (_build_command env language temp_file w)) ++ tail)%list /\
    Forall (names_only temp_file) tail.
Proof.
  unfold build_and_run.
  destruct (_build_command env language temp_file w) as [[cmd | e] w1]; simpl snd.
  - destruct (program env cmd input_data (files w1)) as [e alive | c lb out err t | c ds].
    + exists [EvSpawn cmd]. split; [reflexivity | repeat constructor].
    + exists [EvSpawn cmd]. split; [reflexivity | repeat constructor].
    + exists [EvSpawn cmd; EvKill c]. split; [|repeat constructor].
      simpl. now rewrite <- app_assoc.
  - exists []. split; [now rewrite app_nil_r | constructor].
Qed.

(** The log of a call that found a temporary file name: the creation of
    the source file, the compile request if any, and then requests
    that create or unlink no other file. *)
Lemma execute_code_log (env : Env) (language code input_data : string) (w : World)
      (lang_info : LangInfo) (temp_file : string) :
  lookup_language language = Some lang_info ->
  first_unused (files w) ("." +:+ extension lang_info) (tmp_names env) = Some temp_file ->
  exists tail,
    log (snd (execute_code env language code input_data w)) =
    (log w ++ EvCreate temp_file ::
       (if String.eqb language "java" then [EvCompile ["javac"; temp_file]]
        else if String.eqb language "cpp"
             then [EvCompile ["g++"; temp_file; "-o";
                              PyStr.replace ".cpp" ".out" temp_file]]
             else []) ++ tail)%list /\
    Forall (names_only temp_file) tail.
Proof.
  intros Hl Hf. unfold execute_code. rewrite Hl, Hf.
  destruct (build_and_run_log env language temp_file input_data
              (write_source temp_file code w)) as [t1 [H1 F1]].
  destruct (build_and_run env language temp_file input_data
              (write_source temp_file code w)) as [result w2].
  simpl snd in *.
  destruct (cleanup_log temp_file w2) as [t2 [H2 F2]].
  exists (t1 ++ t2)%list. split; [|now apply Forall_app].
  rewrite H2, H1, build_command_log. unfold write_source. simpl.
  rewrite <- !app_assoc. reflexivity.
Qed.

(** On deadline expiry the call asks for the program, then for the kill
    of the child, then for the unlinking of the source file. *)
Lemma timeout_log (env : Env) (language code input_data : string) (w : World)
      (temp_file : string) (cmd : list string) (w1 : World)
      (child : pid) (descendants : gset pid) :
  reaches_run env language code input_data w temp_file cmd w1
              (DeadlineExpired child descendants) ->
  log (snd (execute_code env language code input_data w))
  = (log w1 ++ [EvSpawn cmd; EvKill child; EvUnlink temp_file])%list.
Proof.
  intros H. rewrite (execute_code_run _ _ _ _ _ _ _ _ _ H). simpl snd.
  destruct H as [lang_info [_ [_ [Hb _]]]].
  pose proof (source_present env language temp_file code w) as Hs.
  rewrite Hb in Hs. simpl snd in Hs.
  rewrite cleanup_log_present by exact Hs. simpl. now rewrite <- !app_assoc.
Qed.

End LogFacts.

(** On deadline expiry: the result, the one kill request, and the
    processes afterwards. *)
Lemma timeout_processes (env : Executor.Env) (language code input_data : string)
        (w : Executor.World) (temp_file : string) (cmd : list string) (w1 : Executor.World)
        (child : Executor.pid) (descendants : gset Executor.pid) :
  reaches_run env language code input_data w temp_file cmd w1
              (Executor.DeadlineExpired child descendants) ->
  let after := snd (Executor.execute_code env language code input_data w) in
  fst (Executor.execute_code env language code input_data w)
  = Return (Error "Execution timeout") /\
  kills (Executor.log after) = (kills (Executor.log w) ++ [child])%list /\
  Executor.procs after = (Executor.procs w ∪ descendants) ∖ {[child]} /\
  (child ∉ Executor.procs after) /\
  (forall d, d ∈ descendants -> d <> child -> d ∈ Executor.procs after).
Proof.
  intros H after. subst after.
  rewrite (execute_code_run _ _ _ _ _ _ _ _ _ H). simpl fst. simpl snd.
  destruct H as [lang_info [_ [_ [Hb _]]]].
  pose proof (build_command_frame env language temp_file
                (Executor.write_source temp_file code w)) as [Hp [Hk _]].
  rewrite Hb in Hp, Hk. simpl snd in Hp, Hk.
  rewrite cleanup_kills, cleanup_procs, kills_record.
  assert (Hprocs : Executor.procs
            (Executor.record (Executor.EvKill child)
               (Executor.with_procs
                  ((Executor.procs w1 ∪ {[child]} ∪ descendants) ∖ {[child]})
                  (Executor.record (Executor.EvSpawn cmd) w1)))
          = (Executor.procs w ∪ descendants) ∖ {[child]}).
  { simpl. rewrite Hp. unfold Executor.write_source. simpl. set_solver. }
  rewrite Hprocs.
  split; [reflexivity|]. split.
  - f_equal. change (kills (Executor.log (Executor.record (Executor.EvSpawn cmd) w1))
                     = kills (Executor.log w)).
    rewrite kills_record, Hk. unfold Executor.write_source. rewrite kills_record.
    simpl. now rewrite !app_nil_r.
  - split; [reflexivity|]. split; set_solver.
Qed.

(** C3 (as amended). For every execution whose deadline expires: the
    result is the error [Execution timeout]; one kill request is made,
    for the pid of the child, and no other process is signalled, so that
    the child is gone afterwards and every other process, the
    descendants of the child among them, is still there; and the call
    returns within the timeout plus a small epsilon of the start of the
    program (for a language without compile step: of the start of the
    call), since all it does once the timeout has gone by is to ask for
    the kill and for the unlinking of the source file, neither of which
    waits. *)
Theorem C3_timeout_kills_child_only (env : Executor.Env) (language code input_data : string)
        (w : Executor.World) (temp_file : string) (cmd : list string) (w1 : Executor.World)
        (child : Executor.pid) (descendants : gset Executor.pid) :
  reaches_run env language code input_data w temp_file cmd w1
              (Executor.DeadlineExpired child descendants) ->
  let after := snd (Executor.execute_code env language code input_data w) in
  fst (Executor.execute_code env language code input_data w)
  = Return (Error "Execution timeout") /\
  kills (Executor.log after) = (kills (Executor.log w) ++ [child])%list /\
  Executor.procs after = (Executor.procs w ∪ descendants) ∖ {[child]} /\
  (child ∉ Executor.procs after) /\
  (forall d, d ∈ descendants -> d <> child -> d ∈ Executor.procs after) /\
  deadline_ms = 10000 /\
  since_spawn (Executor.log after)
  = [Executor.EvKill child; Executor.EvUnlink temp_file] /\
  (forall latency epsilon,
     (forall e, 0 <= latency e <= epsilon) ->
     deadline_ms <= elapsed latency deadline_ms (since_spawn (Executor.log after))
     <= deadline_ms + 2 * epsilon) /\
  (language <> "java" -> language <> "cpp" ->
   Executor.log after
   = (Executor.log w ++ [Executor.EvCreate temp_file; Executor.EvSpawn cmd;
                         Executor.EvKill child; Executor.EvUnlink temp_file])%list /\
   forall latency epsilon,
     (forall e, 0 <= latency e <= epsilon) ->
     deadline_ms
     <= elapsed latency deadline_ms
          [Executor.EvCreate temp_file; Executor.EvSpawn cmd;
           Executor.EvKill child; Executor.EvUnlink temp_file]
     <= deadline_ms + 4 * epsilon).
Proof.
  intros H after.
  destruct (timeout_processes _ _ _ _ _ _ _ _ _ _ H) as [Hres [Hk [Hp [Hc Hd]]]].
  fold after in Hk, Hp, Hc, Hd.
  pose proof (timeout_log _ _ _ _ _ _ _ _ _ _ H) as Hlog. fold after in Hlog.
  assert (Hsince : since_spawn (Executor.log after)
                   = [Executor.EvKill child; Executor.EvUnlink temp_file]).
  { rewrite Hlog. unfold since_spawn.
    change (Executor.log w1 ++ [Executor.EvSpawn cmd; Executor.EvKill child;
                                Executor.EvUnlink temp_file])%list
      with (Executor.log w1 ++ [Executor.EvSpawn cmd]
              ++ [Executor.EvKill child; Executor.EvUnlink temp_file])%list.
    rewrite app_assoc, since_spawn_from_app, since_spawn_from_app. reflexivity. }
  split; [exact Hres|]. split; [exact Hk|]. split; [exact Hp|]. split; [exact Hc|].
  split; [exact Hd|]. split; [reflexivity|]. split; [exact Hsince|]. split.
  - intros latency epsilon Hl. rewrite Hsince. unfold elapsed.
    pose proof (serving_time_bound latency epsilon
                  [Executor.EvKill child; Executor.EvUnlink temp_file] Hl) as Hb.
    simpl length in Hb. lia.
  - intros Hj Hcpp. split.
    + rewrite Hlog. destruct H as [lang_info [Hl [_ [Hb _]]]].
      apply String.eqb_neq in Hj, Hcpp.
      unfold Executor._build_command in Hb. rewrite Hl, Hj, Hcpp in Hb.
      injection Hb as _ <-. unfold Executor.write_source. simpl.
      now rewrite <- app_assoc.
    + intros latency epsilon Hl. unfold elapsed.
      pose proof (serving_time_bound latency epsilon
                    [Executor.EvCreate temp_file; Executor.EvSpawn cmd;
                     Executor.EvKill child; Executor.EvUnlink temp_file] Hl) as Hb.
      simpl length in Hb. lia.
Qed.

(** C5 (as amended). For every Java or C++ submission whose compiler
    exits with a nonzero code, the call returns the error dictionary
    whose message is [Execution failed: Compilation failed: ] followed
    by the stderr of the compiler; that dictionary has no [success],
    [stdout], [stderr] or [return_code] entry; the submitted program is
    not spawned. *)
Theorem C5_compile_failure (env : Executor.Env) (language code input_data : string)
        (w : Executor.World) (temp_file : string) (cmd : list string)
        (rc : Z) (diagnostics : string) (written : gmap string string) :
  reaches_compile env language code w temp_file cmd
                  (Executor.CompileExit rc diagnostics written) ->
  rc <> 0 ->
  exists result,
    fst (Executor.execute_code env language code input_data w) = Return result /\
    result = Error ("Execution failed: Compilation failed: " +:+ diagnostics) /\
    get_success result = None /\ get_stdout result = None /\
    get_stderr result = None /\ get_return_code result = None /\
    spawns (Executor.log (snd (Executor.execute_code env language code input_data w)))
    = spawns (Executor.log w).
Proof.
  intros H Hrc.
  rewrite (execute_code_compile_failed _ _ _ input_data _ _ _ _ _ _ H Hrc).
  eexists. split; [reflexivity|]. repeat split.
  simpl snd. rewrite cleanup_spawns. unfold Executor.with_files. simpl.
  unfold spawns. rewrite !omap_app. simpl. now rewrite !app_nil_r.
Qed.

(** Sample executions, from the empty world. *)

Section SampleExecutions.

Import Executor Scenario.

Let source : string := py_source.

Lemma python_reaches_run (prog : list string -> string -> gmap string string -> RunOutcome) :
  reaches_run (env_with "abcd1234" compilers_succeed prog) "python" "code" "" empty_world
              source ["python3"; source] (write_source source "code" empty_world)
              (prog ["python3"; source] ""
                    (files (write_source source "code" empty_world))).
Proof.
  exists {| extension := "py"; command := "python3" |}.
  split; [reflexivity|]. split; [reflexivity|]. split; reflexivity.
Qed.

Lemma java_reaches_compile :
  reaches_compile (env_with "abcd1234" compilers_fail (ends "" "" (Exited 0)))
                  "java" "class Main {" empty_world
                  "/tmp/executions/tmpabcd1234.java"
                  ["javac"; "/tmp/executions/tmpabcd1234.java"]
                  (CompileExit 1 "error: expected ';'" ∅).
Proof.
  exists {| extension := "java"; command := "java" |}.
  split; [reflexivity|]. split; [reflexivity|]. split; [|reflexivity].
  left. split; reflexivity.
Qed.

End SampleExecutions.

Lemma C2_result_mapping_witness :
  fst (Executor.execute_code
         (Scenario.env_with "abcd1234" Scenario.compilers_succeed
            (Scenario.ends "" "Killed" (Executor.Signaled 9 true)))
         "python" "code" "" Scenario.empty_world)
  = Return (Completed "" "Killed" (-9) false).
Proof.
  pose proof (C2_result_mapping
                (Scenario.env_with "abcd1234" Scenario.compilers_succeed
                   (Scenario.ends "" "Killed" (Executor.Signaled 9 true)))
                "python" "code" "" Scenario.empty_world
                Scenario.py_source ["python3"; Scenario.py_source]
                (Executor.write_source Scenario.py_source "code" Scenario.empty_world))
    as [Hran _].
  destruct (Hran _ _ _ _ _
              (python_reaches_run (Scenario.ends "" "Killed" (Executor.Signaled 9 true))))
    as [_ [_ [_ Hsig]]].
  apply (Hsig 9 true); [reflexivity | lia].
Defined.

(** C2 as stated fails: no reading of the result tells a child that the
    kernel killed for exceeding a limit from a child that died of the
    same signal for another reason; both get the result of a nonzero
    return code. *)
Lemma C2_counterexample :
  fst (Executor.execute_code
         (Scenario.env_with "abcd1234" Scenario.compilers_succeed
            (Scenario.ends "" "" (Executor.Signaled 9 true)))
         "python" "code" "" Scenario.empty_world)
  = Return (Completed "" "" (-9) false) /\
  ~ exists classify : Outcome ExecResult -> bool,
      forall env language code input_data w temp_file cmd w1 child left_behind out err t,
        reaches_run env language code input_data w temp_file cmd w1
                    (Executor.Ran child left_behind out err t) ->
        Executor.returncode t <> 0 ->
        classify (fst (Executor.execute_code env language code input_data w))
        = killed_over_limit t.
Proof.
  split; [reflexivity|]. intros [classify H].
  pose proof (H _ _ _ _ _ _ _ _ _ _ _ _ _
                (python_reaches_run (Scenario.ends "" "" (Executor.Signaled 9 true)))) as H1.
  pose proof (H _ _ _ _ _ _ _ _ _ _ _ _ _
                (python_reaches_run (Scenario.ends "" "" (Executor.Signaled 9 false)))) as H2.
  change (fst _) with (Return (Completed "" "" (-9) false)) in H1, H2.
  simpl in H1, H2. rewrite H1 in H2 by lia. discriminate H2. lia.
Qed.

Lemma C3_timeout_kills_child_only_witness :
  fst (Executor.execute_code
         (Scenario.env_with "abcd1234" Scenario.compilers_succeed Scenario.hangs)
         "python" "code" "" Scenario.empty_world)
  = Return (Error "Execution timeout") /\
  elapsed (fun _ => 5) deadline_ms
          (since_spawn
             (Executor.log
                (snd (Executor.execute_code
                        (Scenario.env_with "abcd1234" Scenario.compilers_succeed
                           Scenario.hangs)
                        "python" "code" "" Scenario.empty_world))))
  <= 10010.
Proof.
  destruct (C3_timeout_kills_child_only _ _ _ _ _ _ _ _ _ _
              (python_reaches_run Scenario.hangs))
    as [Hres [_ [_ [_ [_ [_ [_ [Htime _]]]]]]]].
  split; [exact Hres|].
  apply (Htime (fun _ => 5) 5). intros _. lia.
Defined.

(** C3 as stated fails: the program started process 101 before the
    deadline; after the call has returned with the timeout error,
    process 101 is still alive, and the only kill request was for
    process 100. *)
Lemma C3_counterexample :
  let run := Executor.execute_code
               (Scenario.env_with "abcd1234" Scenario.compilers_succeed Scenario.hangs)
               "python" "code" "" Scenario.empty_world in
  fst run = Return (Error "Execution timeout") /\
  kills (Executor.log (snd run)) = [100%positive] /\
  101%positive ∈ Executor.procs (snd run).
Proof.
  intros run. split; [reflexivity|]. split; [reflexivity|].
  apply (bool_decide_unpack _). vm_compute. exact I.
Qed.

Lemma C5_compile_failure_witness :
  exists result,
    fst (Executor.execute_code
           (Scenario.env_with "abcd1234" Scenario.compilers_fail
              (Scenario.ends "" "" (Executor.Exited 0)))
           "java" "class Main {" "" Scenario.empty_world) = Return result /\
    result = Error "Execution failed: Compilation failed: error: expected ';'".
Proof.
  destruct (C5_compile_failure _ _ _ "" _ _ _ _ _ _ java_reaches_compile)
    as [result [Hr [He _]]]; [lia|].
  exists result. split; [exact Hr | exact He].
Defined.

(** C5 as stated fails on one point: the dictionary returned for a
    compile failure has no [success] entry, false or otherwise. *)
Lemma C5_counterexample :
  exists result,
    fst (Executor.execute_code
           (Scenario.env_with "abcd1234" Scenario.compilers_fail
              (Scenario.ends "" "" (Executor.Exited 0)))
           "java" "class Main {" "" Scenario.empty_world) = Return result /\
    get_success result <> Some false.
Proof. eexists. split; [reflexivity | discriminate]. Qed.

(** C9, at the failing input: a C++ submission that compiles and runs.
    When the call has returned, the source file is gone and the binary
    that the compiler wrote is still there. *)
Theorem C9_cpp_binary_left_behind :
  let run := Executor.execute_code
               (Scenario.env_with "abcd1234" Scenario.compilers_succeed
                  (Scenario.ends "" "" (Executor.Exited 0)))
               "cpp" "int main(){}" "" Scenario.empty_world in
  fst run = Return (Completed "" "" 0 true) /\
  Executor.files (snd run) !! "/tmp/executions/tmpabcd1234.cpp" = None /\
  Executor.files (snd run) !! "/tmp/executions/tmpabcd1234.out"
  = Some "binary of int main(){}" /\
  Executor.log (snd run) =
  [Executor.EvCreate "/tmp/executions/tmpabcd1234.cpp";
   Executor.EvCompile ["g++"; "/tmp/executions/tmpabcd1234.cpp"; "-o";
                       "/tmp/executions/tmpabcd1234.out"];
   Executor.EvSpawn ["/tmp/executions/tmpabcd1234.out"];
   Executor.EvUnlink "/tmp/executions/tmpabcd1234.cpp"].
Proof. intros run. vm_compute. repeat split. Qed.

(** ** Temporary names and the files derived from them *)

Section TemporaryFiles.

Import PyStr Executor.

Lemma no_dot_app (a b : string) : no_dot (a +:+ b) = no_dot a && no_dot b.
Proof. induction a as [|c a IH]; simpl; [reflexivity|]. now rewrite IH, andb_assoc. Qed.

Lemma tmp_char_not_dot (c : ascii) : is_tmp_char c = true -> Ascii.eqb c "." = false.
Proof. destruct c as [[] [] [] [] [] [] [] []]; (reflexivity || discriminate). Qed.

Lemma tmp_name_no_dot (name : string) : tmp_name_ok name = true -> no_dot name = true.
Proof.
  induction name as [|c t IH]; simpl; [reflexivity|].
  intros [Hc Ht]%andb_true_iff. now rewrite (tmp_char_not_dot c Hc), IH.
Qed.

(** Two texts that agree up to and including their first dot. *)
Lemma split_at_dot (a b x y : string) :
  no_dot a = true -> no_dot b = true ->
  a +:+ String "." x = b +:+ String "." y -> a = b /\ x = y.
Proof.
  revert b. induction a as [|c a IH]; intros [|d b]; simpl.
  - intros _ _ [= ->]. auto.
  - intros _ [Hd _]%andb_true_iff [= <- _]. discriminate.
  - intros [Hc _]%andb_true_iff _ [= -> _]. discriminate.
  - intros [_ Ha]%andb_true_iff [_ Hb]%andb_true_iff [= -> H].
    destruct (IH b Ha Hb H) as [-> ->]. auto.
Qed.

Lemma replace_cpp_suffix (s : string) :
  no_dot s = true -> replace ".cpp" ".out" (s +:+ ".cpp") = s +:+ ".out".
Proof.
  unfold replace. induction s as [|c s IH]; [reflexivity|].
  simpl no_dot. intros [Hc Hs]%andb_true_iff.
  change (String c s +:+ ".cpp") with (String c (s +:+ ".cpp")).
  cbn [replace_from starts_with].
  destruct (Ascii.eqb "." c) eqn:E.
  - apply Ascii.eqb_eq in E. subst c. discriminate.
  - simpl. now rewrite IH.
Qed.

Lemma tmp_path_shape (suffix name : string) :
  tmp_path suffix name = (tmp_prefix +:+ name) +:+ suffix.
Proof. reflexivity. Qed.

Lemma tmp_path_in_dir (suffix name : string) :
  starts_with "/tmp/executions/" (tmp_path suffix name) = true.
Proof. reflexivity. Qed.

Lemma tmp_stem_no_dot (name : string) :
  tmp_name_ok name = true -> no_dot (tmp_prefix +:+ name) = true.
Proof. intros H. rewrite no_dot_app, (tmp_name_no_dot name H). reflexivity. Qed.

(** The binary of a C++ source has the name of the source with [.out]
    in place of [.cpp]. *)
Lemma cpp_output_file (name : string) :
  tmp_name_ok name = true ->
  replace ".cpp" ".out" (tmp_path ".cpp" name) = tmp_path ".out" name.
Proof.
  intros H. rewrite !tmp_path_shape. apply replace_cpp_suffix, tmp_stem_no_dot, H.
Qed.

Lemma tmp_paths_differ (name1 name2 ext1 ext2 : string) :
  tmp_name_ok name1 = true -> tmp_name_ok name2 = true ->
  tmp_path (String "." ext1) name1 = tmp_path (String "." ext2) name2 ->
  name1 = name2 /\ ext1 = ext2.
Proof.
  intros H1 H2. rewrite !tmp_path_shape. intros H.
  apply split_at_dot in H; [|now apply tmp_stem_no_dot..].
  destruct H as [H ->]. split; [|reflexivity].
  unfold tmp_prefix in H. simpl in H. now injection H.
Qed.

Lemma first_unused_ok (fs : gmap string string) (suffix : string)
      (candidates : list string) (path : string) :
  forallb tmp_name_ok candidates = true ->
  first_unused fs suffix candidates = Some path ->
  fs !! path = None /\
  exists name, tmp_name_ok name = true /\ path = tmp_path suffix name.
Proof.
  intros Hok Hp. destruct (first_unused_fresh fs suffix candidates path Hp)
    as [Hn [name [Hin ->]]].
  split; [exact Hn|]. exists name. split; [|reflexivity].
  rewrite forallb_forall in Hok. now apply Hok.
Qed.

Lemma no_slash_app (a b : string) : no_slash (a +:+ b) = no_slash a && no_slash b.
Proof. induction a as [|c a IH]; simpl; [reflexivity|]. now rewrite IH, andb_assoc. Qed.

Lemma tmp_char_not_slash (c : ascii) : is_tmp_char c = true -> Ascii.eqb c "/" = false.
Proof. destruct c as [[] [] [] [] [] [] [] []]; (reflexivity || discriminate). Qed.

Lemma tmp_name_no_slash (name : string) : tmp_name_ok name = true -> no_slash name = true.
Proof.
  induction name as [|c t IH]; simpl; [reflexivity|].
  intros [Hc Ht]%andb_true_iff. now rewrite (tmp_char_not_slash c Hc), IH.
Qed.

Lemma extension_no_slash (language : string) (lang_info : LangInfo) :
  lookup_language language = Some lang_info -> no_slash (extension lang_info) = true.
Proof.
  unfold lookup_language, supported_languages. cbn [lookup_in].
  destruct (String.eqb "python" language); [intros [= <-]; reflexivity|].
  destruct (String.eqb "javascript" language); [intros [= <-]; reflexivity|].
  destruct (String.eqb "java" language); [intros [= <-]; reflexivity|].
  destruct (String.eqb "cpp" language); [intros [= <-]; reflexivity|].
  destruct (String.eqb "go" language); [intros [= <-]; reflexivity|].
  discriminate.
Qed.

(** A temporary path lies in [/tmp/executions] itself. *)
Lemma tmp_path_directly_in_dir (suffix name : string) :
  tmp_name_ok name = true -> no_slash suffix = true ->
  in_executions_dir (tmp_path suffix name).
Proof.
  intros Hn Hs. exists ("tmp" +:+ name +:+ suffix). split; [reflexivity|].
  simpl. now rewrite no_slash_app, (tmp_name_no_slash name Hn).
Qed.

End TemporaryFiles.

(** C4 (as amended). Every execution that finds a temporary name first
    creates its source file, at a path that did not exist before and
    that lies in the one directory [/tmp/executions] itself, which all
    executions share: no directory is made for an execution. An
    execution that starts while the source file of another still exists
    gets a different source path. For two such C++ submissions, each
    asks [g++] for a binary named as its source file with [.out] in
    place of [.cpp]; these binaries lie in [/tmp/executions] itself and
    differ from each other and from both source files. For a Java
    submission the compiler is given the source path and the program is
    run with [/tmp/executions] as its class path. *)
Theorem C4_unique_files_in_shared_directory
        (env1 env2 : Executor.Env)
        (language1 code1 input1 language2 code2 input2 : string)
        (w1 w2 : Executor.World) (info1 info2 : Executor.LangInfo) (src1 src2 : string) :
  Executor.lookup_language language1 = Some info1 ->
  Executor.lookup_language language2 = Some info2 ->
  forallb Executor.tmp_name_ok (Executor.tmp_names env1) = true ->
  forallb Executor.tmp_name_ok (Executor.tmp_names env2) = true ->
  Executor.first_unused (Executor.files w1) ("." +:+ Executor.extension info1)
                        (Executor.tmp_names env1) = Some src1 ->
  Executor.first_unused (Executor.files w2) ("." +:+ Executor.extension info2)
                        (Executor.tmp_names env2) = Some src2 ->
  is_Some (Executor.files w2 !! src1) ->
  let after1 := snd (Executor.execute_code env1 language1 code1 input1 w1) in
  let after2 := snd (Executor.execute_code env2 language2 code2 input2 w2) in
  (exists rest, Executor.log after1
                = (Executor.log w1 ++ Executor.EvCreate src1 :: rest)%list) /\
  (exists rest, Executor.log after2
                = (Executor.log w2 ++ Executor.EvCreate src2 :: rest)%list) /\
  Executor.files (Executor.write_source src1 code1 w1) !! src1 = Some code1 /\
  Executor.files (Executor.write_source src2 code2 w2) !! src2 = Some code2 /\
  Executor.files w1 !! src1 = None /\ Executor.files w2 !! src2 = None /\
  src1 <> src2 /\
  in_executions_dir src1 /\ in_executions_dir src2 /\
  (language1 = "cpp" -> language2 = "cpp" ->
   let out1 := PyStr.replace ".cpp" ".out" src1 in
   let out2 := PyStr.replace ".cpp" ".out" src2 in
   (exists rest,
       Executor.log after1
       = (Executor.log w1 ++ Executor.EvCreate src1
            :: Executor.EvCompile ["g++"; src1; "-o"; out1] :: rest)%list) /\
   (exists rest,
       Executor.log after2
       = (Executor.log w2 ++ Executor.EvCreate src2
            :: Executor.EvCompile ["g++"; src2; "-o"; out2] :: rest)%list) /\
   out1 <> out2 /\ out1 <> src1 /\ out1 <> src2 /\ out2 <> src1 /\ out2 <> src2 /\
   in_executions_dir out1 /\ in_executions_dir out2) /\
  (language1 = "java" ->
   (exists rest,
       Executor.log after1
       = (Executor.log w1 ++ Executor.EvCreate src1
            :: Executor.EvCompile ["javac"; src1] :: rest)%list) /\
   forall w cmd,
     fst (Executor._build_command env1 "java" src1 w) = Return cmd ->
     cmd = ["java"; "-cp"; "/tmp/executions"; Executor.stem src1]).
Proof.
  intros Hl1 Hl2 Hok1 Hok2 H1 H2 Hlive after1 after2.
  destruct (execute_code_log env1 language1 code1 input1 w1 info1 src1 Hl1 H1)
    as [t1 [Hlog1 _]].
  destruct (execute_code_log env2 language2 code2 input2 w2 info2 src2 Hl2 H2)
    as [t2 [Hlog2 _]].
  fold after1 in Hlog1. fold after2 in Hlog2.
  pose proof (extension_no_slash _ _ Hl1) as Hs1.
  pose proof (extension_no_slash _ _ Hl2) as Hs2.
  change ("." +:+ Executor.extension info1) with (String "." (Executor.extension info1))
    in H1.
  change ("." +:+ Executor.extension info2) with (String "." (Executor.extension info2))
    in H2.
  destruct (first_unused_ok _ _ _ _ Hok1 H1) as [Hn1 [n1 [Hc1 E1]]].
  destruct (first_unused_ok _ _ _ _ Hok2 H2) as [Hn2 [n2 [Hc2 E2]]].
  assert (Hne : src1 <> src2).
  { intros E. rewrite E, Hn2 in Hlive. now destruct Hlive. }
  split; [eexists; exact Hlog1|]. split; [eexists; exact Hlog2|].
  split; [unfold Executor.write_source; simpl; apply lookup_insert_eq|].
  split; [unfold Executor.write_source; simpl; apply lookup_insert_eq|].
  split; [exact Hn1|]. split; [exact Hn2|]. split; [exact Hne|].
  split; [rewrite E1; now apply tmp_path_directly_in_dir|].
  split; [rewrite E2; now apply tmp_path_directly_in_dir|].
  split.
  - intros -> -> out1 out2. subst out1 out2.
    injection Hl1 as <-. injection Hl2 as <-. simpl in E1, E2.
    split; [eexists; exact Hlog1|]. split; [eexists; exact Hlog2|].
    subst src1 src2. rewrite !cpp_output_file by assumption.
    assert (Hnames : n1 <> n2) by (intros ->; now apply Hne).
    split; [intros E; apply tmp_paths_differ in E; tauto|].
    split; [intros E; apply tmp_paths_differ in E; [destruct E; discriminate|assumption..]|].
    split; [intros E; apply tmp_paths_differ in E; [destruct E; discriminate|assumption..]|].
    split; [intros E; apply tmp_paths_differ in E; [destruct E; discriminate|assumption..]|].
    split; [intros E; apply tmp_paths_differ in E; [destruct E; discriminate|assumption..]|].
    split; now apply tmp_path_directly_in_dir.
  - intros ->. split; [eexists; exact Hlog1|].
    intros w cmd. unfold Executor._build_command. simpl. unfold Executor.run_compiler.
    destruct (Executor.compiler env1 _ _) as [m | rc err written]; [discriminate|].
    destruct (rc =? 0); [|discriminate]. now intros [= <-].
Qed.

Lemma C4_unique_files_in_shared_directory_witness :
  let first := Scenario.env_with "aaaaaaaa" Scenario.compilers_succeed
                 (Scenario.ends "" "" (Executor.Exited 0)) in
  let second := {| Executor.tmp_names := ["aaaaaaaa"; "bbbbbbbb"];
                   Executor.compiler := Scenario.compilers_succeed;
                   Executor.program := Scenario.ends "" "" (Executor.Exited 0) |} in
  let meanwhile := Executor.write_source "/tmp/executions/tmpaaaaaaaa.cpp"
                     "int main(){}" Scenario.empty_world in
  Executor.first_unused (Executor.files meanwhile) ".cpp" (Executor.tmp_names second)
  = Some "/tmp/executions/tmpbbbbbbbb.cpp" /\
  PyStr.replace ".cpp" ".out" "/tmp/executions/tmpaaaaaaaa.cpp"
  <> PyStr.replace ".cpp" ".out" "/tmp/executions/tmpbbbbbbbb.cpp".
Proof.
  intros first second meanwhile.
  assert (Hsecond :
            Executor.first_unused (Executor.files meanwhile) ".cpp"
                                  (Executor.tmp_names second)
            = Some "/tmp/executions/tmpbbbbbbbb.cpp") by (vm_compute; reflexivity).
  split; [exact Hsecond|].
  assert (Hfirst : Executor.first_unused (Executor.files Scenario.empty_world) ".cpp"
                                         (Executor.tmp_names first)
                   = Some "/tmp/executions/tmpaaaaaaaa.cpp") by (vm_compute; reflexivity).
  assert (Hlive : is_Some (Executor.files meanwhile !! "/tmp/executions/tmpaaaaaaaa.cpp"))
    by (unfold meanwhile, Executor.write_source; simpl;
        rewrite lookup_insert_eq; eexists; reflexivity).
  destruct (C4_unique_files_in_shared_directory
              first second "cpp" "int main(){}" "" "cpp" "int main(){return 0;}" ""
              Scenario.empty_world meanwhile
              {| Executor.extension := "cpp"; Executor.command := "g++" |}
              {| Executor.extension := "cpp"; Executor.command := "g++" |}
              "/tmp/executions/tmpaaaaaaaa.cpp" "/tmp/executions/tmpbbbbbbbb.cpp"
              eq_refl eq_refl eq_refl eq_refl Hfirst Hsecond Hlive)
    as [_ [_ [_ [_ [_ [_ [_ [_ [_ [Hcpp _]]]]]]]]]].
  destruct (Hcpp eq_refl eq_refl) as [_ [_ [Hout _]]]. exact Hout.
Defined.

(** C4 as stated fails: two Java submissions that both declare a class
    [Main], the second compiled while the first has not run yet. Their
    source files differ, but both work in [/tmp/executions]: both run
    commands name it as the class path, and the class file that the
    first compilation wrote is overwritten by the second. *)
Lemma C4_counterexample :
  let first := Scenario.env_with "aaaaaaaa" Scenario.compilers_succeed
                 (Scenario.ends "" "" (Executor.Exited 0)) in
  let second := Scenario.env_with "bbbbbbbb" Scenario.compilers_succeed
                  (Scenario.ends "" "" (Executor.Exited 0)) in
  let src1 := "/tmp/executions/tmpaaaaaaaa.java" in
  let src2 := "/tmp/executions/tmpbbbbbbbb.java" in
  let built1 := Executor._build_command first "java" src1
                  (Executor.write_source src1 "class Main { int a; }" Scenario.empty_world) in
  let built2 := Executor._build_command second "java" src2
                  (Executor.write_source src2 "class Main { int b; }" (snd built1)) in
  Executor.first_unused (Executor.files Scenario.empty_world) ".java"
                        (Executor.tmp_names first) = Some src1 /\
  Executor.first_unused (Executor.files (snd built1)) ".java"
                        (Executor.tmp_names second) = Some src2 /\
  fst built1 = Return ["java"; "-cp"; "/tmp/executions"; "tmpaaaaaaaa"] /\
  fst built2 = Return ["java"; "-cp"; "/tmp/executions"; "tmpbbbbbbbb"] /\
  Executor.files (snd built1) !! "/tmp/executions/Main.class"
  = Some "class of class Main { int a; }" /\
  Executor.files (snd built2) !! "/tmp/executions/Main.class"
  = Some "class of class Main { int b; }".
Proof. vm_compute. repeat split. Qed.

(** * Further properties of the code *)

(** ** [_compare_outputs] *)

Section MoreStringFacts.

Import PyStr.

Lemma lstrip_all_space (s : string) : all_space s = true -> lstrip s = "".
Proof.
  induction s as [|c s IH]; simpl; [reflexivity|].
  intros [Hc Hs]%andb_true_iff. rewrite Hc. auto.
Qed.

Lemma rstrip_all_space (s : string) : all_space s = true -> rstrip s = "".
Proof.
  induction s as [|c s IH]; simpl; [reflexivity|].
  intros [Hc Hs]%andb_true_iff. now rewrite (IH Hs), Hc.
Qed.

Lemma lstrip_pad (l s : string) : all_space l = true -> lstrip (l +:+ s) = lstrip s.
Proof.
  induction l as [|c l IH]; simpl; [reflexivity|].
  intros [Hc Hl]%andb_true_iff. rewrite Hc. auto.
Qed.

Lemma rstrip_pad (s r : string) : all_space r = true -> rstrip (s +:+ r) = rstrip s.
Proof.
  intros Hr. induction s as [|c s IH]; simpl.
  - now apply rstrip_all_space.
  - now rewrite IH.
Qed.

Lemma strip_pad_right (s r : string) :
  all_space r = true -> rstrip (lstrip (s +:+ r)) = rstrip (lstrip s).
Proof.
  intros Hr. induction s as [|c s IH]; simpl.
  - now rewrite (lstrip_all_space r Hr).
  - destruct (is_space c); [exact IH|].
    change (String c (s +:+ r)) with (String c s +:+ r). now apply rstrip_pad.
Qed.

Lemma strip_pad (l s r : string) :
  all_space l = true -> all_space r = true -> strip (l +:+ s +:+ r) = strip s.
Proof.
  intros Hl Hr. unfold strip. rewrite (lstrip_pad l _ Hl). now apply strip_pad_right.
Qed.

Lemma rstrip_nonempty (c : ascii) (t : string) :
  is_space c = false -> rstrip (String c t) <> "".
Proof. intros Hc. simpl. destruct (rstrip t); [rewrite Hc|]; discriminate. Qed.

Lemma strip_blank (s : string) : String.eqb (strip s) "" = all_space s.
Proof.
  unfold strip. induction s as [|c s IH]; [reflexivity|]. simpl.
  destruct (is_space c) eqn:Hc; [exact IH|].
  apply String.eqb_neq. now apply rstrip_nonempty.
Qed.

Lemma is_space_lower (c : ascii) : is_space (lower_char c) = is_space c.
Proof. destruct c as [[] [] [] [] [] [] [] []]; reflexivity. Qed.

Lemma lower_char_twice (c : ascii) : lower_char (lower_char c) = lower_char c.
Proof. destruct c as [[] [] [] [] [] [] [] []]; reflexivity. Qed.

Lemma lower_twice (s : string) : lower (lower s) = lower s.
Proof. induction s as [|c s IH]; simpl; [reflexivity|]. now rewrite lower_char_twice, IH. Qed.

Lemma lstrip_lower (s : string) : lstrip (lower s) = lower (lstrip s).
Proof.
  induction s as [|c s IH]; simpl; [reflexivity|].
  rewrite is_space_lower. destruct (is_space c); [exact IH | reflexivity].
Qed.

Lemma rstrip_lower (s : string) : rstrip (lower s) = lower (rstrip s).
Proof.
  induction s as [|c s IH]; simpl; [reflexivity|].
  rewrite IH, is_space_lower. destruct (rstrip s); simpl; [|reflexivity].
  destruct (is_space c); reflexivity.
Qed.

Lemma strip_lower (s : string) : strip (lower s) = lower (strip s).
Proof. unfold strip. now rewrite lstrip_lower, rstrip_lower. Qed.

Lemma contains_empty_needle (hay : string) : contains "" hay = true.
Proof. destruct hay; reflexivity. Qed.

End MoreStringFacts.

Section FloatFacts.

Lemma float_eqb_sym (x y : PyFloat.float) : PyFloat.eqb x y = PyFloat.eqb y x.
Proof.
  unfold PyFloat.eqb, SFeqb, SFcompare.
  destruct x as [sx | sx | | sx mx ex], y as [sy | sy | | sy my ey];
    try reflexivity; try (destruct sx, sy; reflexivity); try (destruct sx; reflexivity);
    try (destruct sy; reflexivity).
  change (Pos.compare_cont Eq mx my) with (Pos.compare mx my).
  change (Pos.compare_cont Eq my mx) with (Pos.compare my mx).
  rewrite (Z.compare_antisym ex ey), (Pos.compare_antisym mx my).
  destruct sx, sy; try reflexivity;
    destruct (ex ?= ey); simpl; try reflexivity;
    destruct (mx ?= my)%positive; reflexivity.
Qed.

Lemma float_eqb_refl (x : PyFloat.float) : x <> S754_nan -> PyFloat.eqb x x = true.
Proof.
  unfold PyFloat.eqb, SFeqb, SFcompare.
  destruct x as [s | s | | s m e]; intros H; try reflexivity.
  - destruct s; reflexivity.
  - now elim H.
  - rewrite Z.compare_refl, Pos.compare_cont_refl. destruct s; reflexivity.
Qed.

End FloatFacts.

(** X1. White space around the actual output or around the expected
    output never changes the verdict, in any mode. *)
Theorem X1_compare_ignores_padding (la ra le re actual expected mode : string) :
  PyStr.all_space la = true -> PyStr.all_space ra = true ->
  PyStr.all_space le = true -> PyStr.all_space re = true ->
  Grader._compare_outputs (la +:+ actual +:+ ra) (le +:+ expected +:+ re) mode
  = Grader._compare_outputs actual expected mode.
Proof.
  intros Hla Hra Hle Hre. unfold Grader._compare_outputs.
  now rewrite (strip_pad la actual ra Hla Hra), (strip_pad le expected re Hle Hre).
Qed.

Lemma X1_compare_ignores_padding_witness :
  Grader._compare_outputs ("  " +:+ "42" +:+ Scenario.newline) ("" +:+ "42.0" +:+ " ") "numeric"
  = Grader._compare_outputs "42" "42.0" "numeric".
Proof. apply X1_compare_ignores_padding; reflexivity. Defined.

(** X2. When the two sides are the same text once trimmed, [numeric]
    mode accepts them unless that text parses as a NaN. *)
Theorem X2_numeric_on_equal_texts (actual expected : string) :
  PyStr.strip actual = PyStr.strip expected ->
  Grader._compare_outputs actual expected "numeric" =
  match PyFloat.of_string (PyStr.strip actual) with
  | Some S754_nan => false
  | _ => true
  end.
Proof.
  intros H. rewrite compare_numeric, compare_exact, <- H.
  destruct (PyFloat.of_string (PyStr.strip actual)) as [x|].
  - destruct x; try (apply float_eqb_refl; discriminate). reflexivity.
  - apply String.eqb_refl.
Qed.

Lemma X2_numeric_on_equal_texts_witness :
  Grader._compare_outputs "-NaN" (" -NaN" +:+ Scenario.newline) "numeric" = false.
Proof. apply (X2_numeric_on_equal_texts "-NaN" (" -NaN" +:+ Scenario.newline)). reflexivity. Defined.

(** X3. Swapping the actual and the expected output does not change the
    verdict in [exact] mode, in [numeric] mode, or in a mode that is not
    one of the three known ones. *)
Theorem X3_compare_symmetric (actual expected mode : string) :
  mode <> "contains" ->
  Grader._compare_outputs actual expected mode
  = Grader._compare_outputs expected actual mode.
Proof.
  intros Hc. apply String.eqb_neq in Hc. unfold Grader._compare_outputs.
  rewrite Hc, (String.eqb_sym (PyStr.strip expected) (PyStr.strip actual)).
  destruct (String.eqb mode "exact"); [reflexivity|].
  destruct (String.eqb mode "numeric"); [|reflexivity].
  destruct (PyFloat.of_string (PyStr.strip actual)),
    (PyFloat.of_string (PyStr.strip expected)); try reflexivity.
  apply float_eqb_sym.
Qed.

Lemma X3_compare_symmetric_witness :
  Grader._compare_outputs "1e1" "10" "numeric" = Grader._compare_outputs "10" "1e1" "numeric".
Proof. apply X3_compare_symmetric. discriminate. Defined.

(** X4. When the expected output is empty or only white space,
    [contains] mode accepts every actual output, while [exact] and
    [numeric] mode accept exactly the actual outputs that are empty or
    only white space. *)
Theorem X4_blank_expected (actual expected : string) :
  PyStr.all_space expected = true ->
  Grader._compare_outputs actual expected "contains" = true /\
  Grader._compare_outputs actual expected "exact" = PyStr.all_space actual /\
  Grader._compare_outputs actual expected "numeric" = PyStr.all_space actual.
Proof.
  intros He.
  assert (Hs : PyStr.strip expected = "").
  { apply String.eqb_eq. now rewrite strip_blank. }
  assert (Hexact : Grader._compare_outputs actual expected "exact" = PyStr.all_space actual).
  { rewrite compare_exact, Hs. apply strip_blank. }
  split; [|split; [exact Hexact|]].
  - rewrite compare_contains, Hs. apply contains_empty_needle.
  - rewrite compare_numeric, Hs. change (PyFloat.of_string "") with (@None PyFloat.float).
    destruct (PyFloat.of_string (PyStr.strip actual)); exact Hexact.
Qed.

Lemma X4_blank_expected_witness :
  Grader._compare_outputs "Segmentation fault" Scenario.newline "contains" = true /\
  Grader._compare_outputs "Segmentation fault" Scenario.newline "exact" = false.
Proof.
  destruct (X4_blank_expected "Segmentation fault" Scenario.newline eq_refl) as [Hc [He _]].
  split; [exact Hc | exact He].
Defined.

(** X5. [contains] mode does not look at letter case on either side:
    lower-casing the actual output, the expected output, or both, leaves
    the verdict as it is. *)
Theorem X5_contains_ignores_case (actual expected : string) :
  Grader._compare_outputs (PyStr.lower actual) expected "contains"
  = Grader._compare_outputs actual expected "contains" /\
  Grader._compare_outputs actual (PyStr.lower expected) "contains"
  = Grader._compare_outputs actual expected "contains" /\
  Grader._compare_outputs (PyStr.lower actual) (PyStr.lower expected) "contains"
  = Grader._compare_outputs actual expected "contains".
Proof.
  rewrite !compare_contains, !strip_lower, !lower_twice. auto.
Qed.

(** X6. Whatever [exact] mode accepts, [contains] mode accepts as
    well. *)
Theorem X6_exact_implies_contains (actual expected : string) :
  Grader._compare_outputs actual expected "exact" = true ->
  Grader._compare_outputs actual expected "contains" = true.
Proof.
  rewrite compare_exact, compare_contains. intros H%String.eqb_eq.
  rewrite H. apply contains_refl.
Qed.

Lemma X6_exact_implies_contains_witness :
  Grader._compare_outputs (" Yes" +:+ Scenario.newline) "Yes" "contains" = true.
Proof. apply X6_exact_implies_contains. reflexivity. Defined.

(** ** [test_student_code] *)

Section MoreGrading.

Import Grader.

Context {St : Type} (post : Transport St) (student_code language : string).

(** The loop reads the problem only for its comparison mode. *)
Lemma run_tests_mode (pd1 pd2 : ProblemData) (cases : list TestCase) (st : St) :
  (forall a e, _compare_outputs a e (default "exact" (output_type pd1))
               = _compare_outputs a e (default "exact" (output_type pd2))) ->
  run_tests post pd1 student_code language cases st
  = run_tests post pd2 student_code language cases st.
Proof.
  intros Hm. revert st. induction cases as [|tc cases IH]; intros st; [reflexivity|].
  simpl. unfold run_test.
  destruct (_execute_code post language student_code (default "" (input tc)) st) as [r st1].
  rewrite Hm, IH. reflexivity.
Qed.

Lemma test_student_code_mode (pd1 pd2 : ProblemData) (st : St) :
  test_cases pd1 = test_cases pd2 ->
  (forall a e, _compare_outputs a e (default "exact" (output_type pd1))
               = _compare_outputs a e (default "exact" (output_type pd2))) ->
  test_student_code post pd1 student_code language st
  = test_student_code post pd2 student_code language st.
Proof.
  intros Hc Hm. unfold test_student_code. rewrite Hc.
  now rewrite (run_tests_mode pd1 pd2 _ st Hm).
Qed.

Lemma execute_recording (input_data : string) (seen : list Payload) (st : St) :
  _execute_code (recording post) language student_code input_data (seen, st) =
  (fst (_execute_code post language student_code input_data st),
   ((seen ++ [{| Grader.language := language; code := student_code;
                 payload_input := input_data |}])%list,
    snd (_execute_code post language student_code input_data st))).
Proof.
  unfold _execute_code, recording. simpl.
  destruct (post _ st) as [[e | status http_error body] st']; [reflexivity|].
  destruct ((400 <=? status) && (status <? 600)); reflexivity.
Qed.

Lemma run_tests_recording (problem_data : ProblemData) (cases : list TestCase)
      (seen : list Payload) (st : St) :
  run_tests (recording post) problem_data student_code language cases (seen, st) =
  (fst (run_tests post problem_data student_code language cases st),
   ((seen ++ map (payload_of student_code language) cases)%list,
    snd (run_tests post problem_data student_code language cases st))).
Proof.
  revert seen st. induction cases as [|tc cases IH]; intros seen st.
  - simpl. now rewrite app_nil_r.
  - simpl. unfold run_test. rewrite execute_recording.
    destruct (_execute_code post language student_code (default "" (input tc)) st)
      as [r st1]. simpl. rewrite IH.
    destruct (run_tests post problem_data student_code language cases st1) as [rs st2].
    simpl. now rewrite <- app_assoc.
Qed.

Lemma count_passed_app (l1 l2 : list TestResult) :
  count_passed (l1 ++ l2)%list = count_passed l1 + count_passed l2.
Proof. induction l1 as [|r l1 IH]; simpl; [reflexivity|]. rewrite IH. lia. Qed.

End MoreGrading.

Section ScoreFacts.

Lemma div_eucl_pair (a b : Z) : Z.div_eucl a b = (a / b, a mod b).
Proof. unfold Z.div, Z.modulo. destruct (Z.div_eucl a b); reflexivity. Qed.

Lemma new_location_zero (n : Z) : new_location n 0 = loc_Exact.
Proof.
  unfold new_location, new_location_even, new_location_odd.
  destruct (Z.even n); reflexivity.
Qed.

Lemma div_core_self (n : positive) :
  SFdiv_core_binary PyFloat.prec PyFloat.emax (Zpos n) 0 (Zpos n) 0
  = (2 ^ 53, -53, loc_Exact).
Proof.
  unfold SFdiv_core_binary.
  rewrite !Z.add_0_r, (Z.sub_diag (Zdigits2 (Z.pos n))).
  replace (Z.min (fexp PyFloat.prec PyFloat.emax 0) (0 - 0)) with (-53) by reflexivity.
  replace (0 - 0 - -53) with 53 by reflexivity.
  cbv iota beta.
  rewrite div_eucl_pair, Z.shiftl_mul_pow2 by lia.
  rewrite (Z.mul_comm (Z.pos n)), Z.div_mul, Z.mod_mul by lia.
  now rewrite new_location_zero.
Qed.

(** [n / n] is the float [1.0] for every positive int [n]. *)
Lemma int_truediv_self (n : positive) :
  PyFloat.int_truediv (Zpos n) (Zpos n) = Some (PyFloat.of_int 1).
Proof. unfold PyFloat.int_truediv, SFdiv. now rewrite div_core_self. Qed.

End ScoreFacts.

(** X7. A problem without [output_type], or with one that is not
    [exact], [numeric] or [contains], is graded exactly as the same
    problem with [output_type] set to [exact]. *)
Theorem X7_default_mode_is_exact {St : Type} (post : Grader.Transport St)
        (problem_data : Grader.ProblemData) (student_code language : string) (st : St) :
  (Grader.output_type problem_data = None \/
   exists mode, Grader.output_type problem_data = Some mode /\
                mode <> "exact" /\ mode <> "numeric" /\ mode <> "contains") ->
  Grader.test_student_code post problem_data student_code language st
  = Grader.test_student_code post
      {| Grader.test_cases := Grader.test_cases problem_data;
         Grader.output_type := Some "exact" |}
      student_code language st.
Proof.
  intros H. apply test_student_code_mode; [reflexivity|]. intros a e. simpl.
  destruct H as [-> | [mode [-> [H1 [H2 H3]]]]]; [reflexivity|].
  simpl. now apply compare_other.
Qed.

Lemma X7_default_mode_is_exact_witness :
  Grader.test_student_code Scenario.echo
    {| Grader.test_cases := Some [Scenario.case 1 "3.0" "3"]; Grader.output_type := None |}
    "code" "python" tt
  = Grader.test_student_code Scenario.echo
      {| Grader.test_cases := Some [Scenario.case 1 "3.0" "3"];
         Grader.output_type := Some "exact" |}
      "code" "python" tt.
Proof.
  apply (X7_default_mode_is_exact Scenario.echo
           {| Grader.test_cases := Some [Scenario.case 1 "3.0" "3"];
              Grader.output_type := None |}).
  left. reflexivity.
Defined.

(** X8. A problem without [test_cases], or with an empty list of them,
    gets the summary with the int score [0], no test and no result, and
    no request is sent to the executor. *)
Theorem X8_no_test_cases {St : Type} (post : Grader.Transport St)
        (problem_data : Grader.ProblemData) (student_code language : string) (st : St) :
  (Grader.test_cases problem_data = None \/ Grader.test_cases problem_data = Some []) ->
  Grader.test_student_code post problem_data student_code language st
  = (Return {| Grader.score := Grader.PyInt 0;
               Grader.total_tests := 0;
               Grader.passed_tests := 0;
               Grader.detailed_results := [] |}, st) /\
  snd (Grader.test_student_code (recording post) problem_data student_code language
         ([], st)) = ([], st).
Proof.
  intros H. unfold Grader.test_student_code.
  destruct H as [-> | ->]; split; reflexivity.
Qed.

Lemma X8_no_test_cases_witness :
  fst (Grader.test_student_code Scenario.unreachable
         {| Grader.test_cases := None; Grader.output_type := Some "numeric" |}
         "code" "python" tt)
  = Return {| Grader.score := Grader.PyInt 0; Grader.total_tests := 0;
              Grader.passed_tests := 0; Grader.detailed_results := [] |}.
Proof.
  destruct (X8_no_test_cases Scenario.unreachable
              {| Grader.test_cases := None; Grader.output_type := Some "numeric" |}
              "code" "python" tt) as [H _]; [left; reflexivity|].
  rewrite H. reflexivity.
Defined.

(** X9. When there is at least one test: if every test passed the score
    is exactly the float [100.0], and if none passed it is exactly the
    float [0.0]. *)
Theorem X9_score_all_or_none {St : Type} (post : Grader.Transport St)
        (problem_data : Grader.ProblemData) (student_code language : string) (st : St) :
  exists s st',
    Grader.test_student_code post problem_data student_code language st = (Return s, st') /\
    (Grader.total_tests s <> 0 -> Grader.passed_tests s = Grader.total_tests s ->
     Grader.score s = Grader.PyFloatV (PyFloat.of_int 100)) /\
    (Grader.total_tests s <> 0 -> Grader.passed_tests s = 0 ->
     Grader.score s = Grader.PyFloatV (S754_zero false)) /\
    PyFloat.of_string "100.0" = Some (PyFloat.of_int 100) /\
    PyFloat.of_string "0.0" = Some (S754_zero false).
Proof.
  destruct (test_student_code_summary post problem_data student_code language st)
    as [s [Hrun [Hres [Htot [Hpas Hscore]]]]].
  exists s. eexists. split; [exact Hrun|].
  destruct (total_score_returns (Grader.passed_tests s) (Grader.detailed_results s))
    as [v [Hv [_ Hpos]]].
  rewrite Hscore in Hv. injection Hv as <-. rewrite <- Htot in Hpos.
  split; [|split; [|split; reflexivity]].
  - intros Hn Hall. destruct (Hpos Hn) as [q [Hq ->]]. rewrite Hall in Hq.
    assert (Hrange : 0 <= Grader.total_tests s)
      by (rewrite Htot; unfold Grader.len; lia).
    destruct (Grader.total_tests s) as [|n|n]; [now elim Hn | | lia].
    rewrite int_truediv_self in Hq. injection Hq as <-. reflexivity.
  - intros Hn Hnone. destruct (Hpos Hn) as [q [Hq ->]]. rewrite Hnone in Hq.
    assert (Hrange : 0 <= Grader.total_tests s)
      by (rewrite Htot; unfold Grader.len; lia).
    destruct (Grader.total_tests s) as [|n|n]; [now elim Hn | | lia].
    simpl in Hq. injection Hq as <-. reflexivity.
Qed.

Lemma X9_score_all_or_none_witness :
  exists s,
    fst (Grader.test_student_code Scenario.echo
           (Scenario.problem "exact" [Scenario.case 1 "a" "a"; Scenario.case 2 "b" "b";
                                      Scenario.case 3 "c" "c"])
           "code" "python" tt) = Return s /\
    Grader.score s = Grader.PyFloatV (PyFloat.of_int 100).
Proof.
  destruct (X9_score_all_or_none Scenario.echo
              (Scenario.problem "exact" [Scenario.case 1 "a" "a"; Scenario.case 2 "b" "b";
                                         Scenario.case 3 "c" "c"])
              "code" "python" tt) as [s [st' [Hrun [Hall _]]]].
  exists s. rewrite Hrun. split; [reflexivity|].
  vm_compute in Hrun. injection Hrun as <- _. apply Hall; [discriminate | reflexivity].
Defined.

(** X10. A grading run sends exactly one request per test case, in the
    order of the test cases, each carrying the language, the submitted
    code and the input of its test case (the empty string when the test
    case has none); keeping track of the requests changes nothing
    else. *)
Theorem X10_one_request_per_test_case {St : Type} (post : Grader.Transport St)
        (problem_data : Grader.ProblemData) (student_code language : string)
        (seen : list Grader.Payload) (st : St) :
  Grader.test_student_code (recording post) problem_data student_code language (seen, st)
  = (fst (Grader.test_student_code post problem_data student_code language st),
     ((seen ++ map (payload_of student_code language)
                   (default [] (Grader.test_cases problem_data)))%list,
      snd (Grader.test_student_code post problem_data student_code language st))).
Proof.
  unfold Grader.test_student_code. rewrite run_tests_recording.
  destruct (Grader.run_tests post problem_data student_code language
              (default [] (Grader.test_cases problem_data)) st) as [results st'].
  simpl. destruct (Grader.total_score (Grader.count_passed results) results); reflexivity.
Qed.

(** X11. Grading the test cases [first ++ second] is grading [first] and
    then, in the state this leaves, grading [second]: the results are
    the two lists of results one after the other, and the numbers of
    tests and of passed tests add up. *)
Theorem X11_grading_composes {St : Type} (post : Grader.Transport St)
        (mode : option string) (first second : list Grader.TestCase)
        (student_code language : string) (st : St) :
  let problem cases := {| Grader.test_cases := Some cases; Grader.output_type := mode |} in
  exists s1 st1 s2 st2 s,
    Grader.test_student_code post (problem first) student_code language st
    = (Return s1, st1) /\
    Grader.test_student_code post (problem second) student_code language st1
    = (Return s2, st2) /\
    Grader.test_student_code post (problem (first ++ second)%list) student_code language st
    = (Return s, st2) /\
    Grader.detailed_results s
    = (Grader.detailed_results s1 ++ Grader.detailed_results s2)%list /\
    Grader.total_tests s = Grader.total_tests s1 + Grader.total_tests s2 /\
    Grader.passed_tests s = Grader.passed_tests s1 + Grader.passed_tests s2.
Proof.
  intros problem.
  destruct (test_student_code_summary post (problem first) student_code language st)
    as [s1 [Hrun1 [Hres1 [Htot1 [Hpas1 _]]]]].
  set (st1 := snd (Grader.run_tests post (problem first) student_code language first st))
    in *.
  destruct (test_student_code_summary post (problem second) student_code language st1)
    as [s2 [Hrun2 [Hres2 [Htot2 [Hpas2 _]]]]].
  destruct (test_student_code_summary post (problem (first ++ second)%list)
              student_code language st) as [s [Hrun [Hres [Htot [Hpas _]]]]].
  simpl in Hrun1, Hres1, Hrun2, Hres2, Hrun, Hres.
  assert (Hm : forall cases st0,
             Grader.run_tests post (problem (first ++ second)%list) student_code language
                              cases st0
             = Grader.run_tests post (problem first) student_code language cases st0).
  { intros cases st0. now apply run_tests_mode. }
  assert (Hm2 : forall cases st0,
             Grader.run_tests post (problem second) student_code language cases st0
             = Grader.run_tests post (problem first) student_code language cases st0).
  { intros cases st0. now apply run_tests_mode. }
  rewrite Hm, run_tests_app in Hrun, Hres. simpl in Hrun, Hres.
  rewrite Hm2 in Hrun2, Hres2.
  exists s1, st1, s2. eexists. exists s.
  split; [exact Hrun1|]. split; [exact Hrun2|]. split; [exact Hrun|].
  assert (Hcat : Grader.detailed_results s
                 = (Grader.detailed_results s1 ++ Grader.detailed_results s2)%list).
  { rewrite Hres, Hres1, Hres2. reflexivity. }
  split; [exact Hcat|]. split.
  - rewrite Htot, Htot1, Htot2, Hcat. unfold Grader.len. rewrite length_app. lia.
  - rewrite Hpas, Hpas1, Hpas2, Hcat. apply count_passed_app.
Qed.

(** ** [execute_code] and the [/execute] endpoint *)

Section MoreExecution.

Import Executor.

Lemma lookup_in_None (table : list (string * LangInfo)) (language : string) :
  lookup_in table language = None <-> ~ In language (map fst table).
Proof.
  induction table as [|[k v] table IH]; simpl; [tauto|].
  destruct (String.eqb k language) eqn:E.
  - apply String.eqb_eq in E. split; [discriminate | intros H; elim H; auto].
  - apply String.eqb_neq in E. rewrite IH. tauto.
Qed.

Lemma lookup_language_None (language : string) :
  lookup_language language = None <-> ~ In language get_languages.
Proof. apply lookup_in_None. Qed.

End MoreExecution.

(** X12. A language that is not one of [python], [javascript], [java],
    [cpp] and [go] gets the error [Unsupported language: ] followed by
    its name, from [execute_code] and, with status 200, from the
    endpoint; no file is created, no process started and nothing is
    asked of the system. *)
Theorem X12_unsupported_language (env : Executor.Env) (language code : string)
        (input : option string) (w : Executor.World) :
  ~ In language ["python"; "javascript"; "java"; "cpp"; "go"] ->
  Executor.execute_code env language code (default "" input) w
  = (Return (Error ("Unsupported language: " +:+ language)), w) /\
  Executor.endpoint_execute env
    (Some {| Executor.req_language := Some language; Executor.req_code := Some code;
             Executor.req_input := input |}) w
  = ((200, Error ("Unsupported language: " +:+ language)), w).
Proof.
  intros H. apply (lookup_language_None language) in H.
  unfold Executor.endpoint_execute, Executor.execute_code. rewrite H. auto.
Qed.

Lemma X12_unsupported_language_witness :
  Executor.execute_code
    (Scenario.env_with "abcd1234" Scenario.compilers_succeed Scenario.hangs)
    "rust" "fn main() {}" "" Scenario.empty_world
  = (Return (Error "Unsupported language: rust"), Scenario.empty_world).
Proof.
  apply (X12_unsupported_language
           (Scenario.env_with "abcd1234" Scenario.compilers_succeed Scenario.hangs)
           "rust" "fn main() {}" None Scenario.empty_world).
  simpl. intros [H | [H | [H | [H | [H | []]]]]]; discriminate H.
Defined.



(** X14. When a temporary file name is found, the path was not in use
    before the call; the first thing the call asks for is the creation
    of that file; and that path is the only one that the call itself
    creates or unlinks. *)
Theorem X14_only_the_source_file_is_named (env : Executor.Env)
        (language code input_data : string) (w : Executor.World)
        (lang_info : Executor.LangInfo) (temp_file : string) :
  Executor.lookup_language language = Some lang_info ->
  Executor.first_unused (Executor.files w) ("." +:+ Executor.extension lang_info)
                        (Executor.tmp_names env) = Some temp_file ->
  Executor.files w !! temp_file = None /\
  exists added,
    Executor.log (snd (Executor.execute_code env language code input_data w))
    = (Executor.log w ++ Executor.EvCreate temp_file :: added)%list /\
    Forall (names_only temp_file) added.
Proof.
  intros Hl Hf.
  destruct (first_unused_fresh _ _ _ _ Hf) as [Hfresh _].
  split; [exact Hfresh|].
  destruct (execute_code_log env language code input_data w lang_info temp_file Hl Hf)
    as [tail [Hlog Htail]].
  eexists. split; [exact Hlog|]. apply Forall_app. split; [|exact Htail].
  destruct (String.eqb language "java"); [repeat constructor|].
  destruct (String.eqb language "cpp"); repeat constructor.
Qed.

Lemma X14_only_the_source_file_is_named_witness :
  exists added,
    Executor.log
      (snd (Executor.execute_code
              (Scenario.env_with "abcd1234" Scenario.compilers_fail
                 (Scenario.ends "" "" (Executor.Exited 0)))
              "java" "class Main {" "" Scenario.empty_world))
    = (Executor.log Scenario.empty_world
         ++ Executor.EvCreate "/tmp/executions/tmpabcd1234.java" :: added)%list /\
    Forall (names_only "/tmp/executions/tmpabcd1234.java") added.
Proof.
  apply (X14_only_the_source_file_is_named
           (Scenario.env_with "abcd1234" Scenario.compilers_fail
              (Scenario.ends "" "" (Executor.Exited 0)))
           "java" "class Main {" "" Scenario.empty_world
           {| Executor.extension := "java"; Executor.command := "java" |}
           "/tmp/executions/tmpabcd1234.java"); reflexivity.
Defined.

Lemma cleanup_compiles (temp_file : string) (w : Executor.World) :
  compiles (Executor.log (Executor.cleanup temp_file w)) = compiles (Executor.log w).
Proof.
  unfold Executor.cleanup. destruct (Executor.files w !! temp_file); [|reflexivity].
  unfold compiles. simpl. rewrite omap_app. simpl. apply app_nil_r.
Qed.

(** X15. For a supported language other than [java] and [cpp], when a
    temporary file name is found: no compiler is asked for, and the
    interpreter is asked for once, with the words of its command
    followed by the path of the source file. *)
Theorem X15_interpreted_languages (env : Executor.Env)
        (language code input_data : string) (w : Executor.World)
        (lang_info : Executor.LangInfo) (temp_file : string) :
  Executor.lookup_language language = Some lang_info ->
  language <> "java" -> language <> "cpp" ->
  Executor.first_unused (Executor.files w) ("." +:+ Executor.extension lang_info)
                        (Executor.tmp_names env) = Some temp_file ->
  let after := snd (Executor.execute_code env language code input_data w) in
  compiles (Executor.log after) = compiles (Executor.log w) /\
  spawns (Executor.log after)
  = (spawns (Executor.log w)
       ++ [(PyStr.split (Executor.command lang_info) ++ [temp_file])%list])%list.
Proof.
  intros Hl Hj Hc Hf after. subst after.
  apply String.eqb_neq in Hj, Hc.
  unfold Executor.execute_code. rewrite Hl, Hf.
  unfold Executor.build_and_run, Executor._build_command. rewrite Hl, Hj, Hc.
  destruct (Executor.program env _ input_data _) as [e alive | child lb out err t | child ds];
    cbn [fst snd]; rewrite cleanup_compiles, cleanup_spawns;
    unfold Executor.write_source, Executor.with_procs, Executor.with_files,
      Executor.record, spawns, compiles; simpl; rewrite !omap_app; simpl;
      now rewrite ?app_nil_r.
Qed.

Lemma X15_interpreted_languages_witness :
  spawns (Executor.log
            (snd (Executor.execute_code
                    (Scenario.env_with "abcd1234" Scenario.compilers_succeed Scenario.hangs)
                    "go" "package main" "" Scenario.empty_world)))
  = [["go"; "run"; "/tmp/executions/tmpabcd1234.go"]].
Proof.
  apply (X15_interpreted_languages
           (Scenario.env_with "abcd1234" Scenario.compilers_succeed Scenario.hangs)
           "go" "package main" "" Scenario.empty_world
           {| Executor.extension := "go"; Executor.command := "go run" |}
           "/tmp/executions/tmpabcd1234.go"); (reflexivity || discriminate).
Defined.

(** X17. One call asks at most once for a process to be started and at
    most once for a process to be killed; a kill is asked for only when
    the result is the timeout error. *)
Theorem X17_at_most_one_spawn_and_kill (env : Executor.Env)
        (language code input_data : string) (w : Executor.World) :
  let run := Executor.execute_code env language code input_data w in
  (spawns (Executor.log (snd run)) = spawns (Executor.log w) \/
   exists cmd, spawns (Executor.log (snd run)) = (spawns (Executor.log w) ++ [cmd])%list) /\
  (kills (Executor.log (snd run)) = kills (Executor.log w) \/
   exists child,
     kills (Executor.log (snd run)) = (kills (Executor.log w) ++ [child])%list /\
     fst run = Return (Error "Execution timeout")).
Proof.
  intros run. subst run. unfold Executor.execute_code.
  destruct (Executor.lookup_language language) as [lang_info|]; [|auto].
  destruct (Executor.first_unused _ _ _) as [temp_file|]; [|auto].
  unfold Executor.build_and_run.
  pose proof (build_command_frame env language temp_file
                (Executor.write_source temp_file code w)) as [_ [Hk Hs]].
  assert (Hk0 : kills (Executor.log (Executor.write_source temp_file code w))
                = kills (Executor.log w)).
  { unfold Executor.write_source. rewrite kills_record. simpl. apply app_nil_r. }
  assert (Hs0 : spawns (Executor.log (Executor.write_source temp_file code w))
                = spawns (Executor.log w)).
  { unfold Executor.write_source. rewrite spawns_record. simpl. apply app_nil_r. }
  rewrite Hk0 in Hk. rewrite Hs0 in Hs.
  destruct (Executor._build_command env language temp_file
              (Executor.write_source temp_file code w)) as [[cmd | e] w1];
    simpl snd in Hk, Hs.
  - destruct (Executor.program env cmd input_data (Executor.files w1))
      as [e alive | child lb out err t | child ds];
      cbn [fst snd]; rewrite cleanup_spawns, cleanup_kills.
    + split; [right; exists cmd | left].
      * change (spawns (Executor.log (Executor.record (Executor.EvSpawn cmd) w1))
                = (spawns (Executor.log w) ++ [cmd])%list).
        now rewrite spawns_record, Hs.
      * change (kills (Executor.log (Executor.record (Executor.EvSpawn cmd) w1))
                = kills (Executor.log w)).
        rewrite kills_record, Hk. apply app_nil_r.
    + split; [right; exists cmd | left].
      * change (spawns (Executor.log (Executor.record (Executor.EvSpawn cmd) w1))
                = (spawns (Executor.log w) ++ [cmd])%list).
        now rewrite spawns_record, Hs.
      * change (kills (Executor.log (Executor.record (Executor.EvSpawn cmd) w1))
                = kills (Executor.log w)).
        rewrite kills_record, Hk. apply app_nil_r.
    + split; [right; exists cmd | right; exists child; split; [|reflexivity]].
      * rewrite spawns_record. simpl.
        change (spawns (Executor.log (Executor.record (Executor.EvSpawn cmd) w1)) ++ []
                = spawns (Executor.log w) ++ [cmd])%list.
        now rewrite spawns_record, Hs, app_nil_r.
      * rewrite kills_record. simpl. f_equal.
        change (kills (Executor.log (Executor.record (Executor.EvSpawn cmd) w1))
                = kills (Executor.log w)).
        rewrite kills_record, Hk. apply app_nil_r.
  - cbn [fst snd]. rewrite cleanup_spawns, cleanup_kills. auto.
Qed.

Section StemFacts.

Import PyStr Executor.

Lemma name_from_no_slash (cur s : string) :
  no_slash s = true -> name_from cur s = String.rev_app cur s.
Proof.
  revert cur. induction s as [|c s IH]; intros cur; simpl; [reflexivity|].
  intros [Hc Hs]%andb_true_iff. apply negb_true_iff in Hc. rewrite Hc. now apply IH.
Qed.

Lemma rfind_no_dot (i : nat) (s : string) : no_dot s = true -> rfind_from "." i s = None.
Proof.
  revert i. induction s as [|c s IH]; intros i; simpl; [reflexivity|].
  intros [Hc Hs]%andb_true_iff. apply negb_true_iff in Hc. now rewrite (IH _ Hs), Hc.
Qed.

Lemma rfind_single_dot (i : nat) (a b : string) :
  no_dot a = true -> no_dot b = true ->
  rfind_from "." i (a +:+ String "." b) = Some (i + String.length a)%nat.
Proof.
  intros Ha Hb. revert i Ha. induction a as [|c a IH]; intros i Ha; simpl.
  - rewrite (rfind_no_dot _ b Hb). f_equal. lia.
  - simpl in Ha. apply andb_true_iff in Ha as [_ Ha]. rewrite (IH (S i) Ha). f_equal. lia.
Qed.

Lemma length_append (a b : string) :
  String.length (a +:+ b) = (String.length a + String.length b)%nat.
Proof. induction a as [|c a IH]; simpl; [reflexivity | now rewrite IH]. Qed.

Lemma substring_prefix (a b : string) : String.substring 0 (String.length a) (a +:+ b) = a.
Proof.
  induction a as [|c a IH]; simpl; [destruct b; reflexivity | now rewrite IH].
Qed.

(** The stem of a temporary path is [tmp] followed by the random name. *)
Lemma stem_tmp_path (name ext : string) :
  tmp_name_ok name = true -> no_dot ext = true -> no_slash ext = true -> ext <> "" ->
  stem (tmp_path (String "." ext) name) = "tmp" +:+ name.
Proof.
  intros Hn Hd Hs He. unfold stem.
  assert (Hname : path_name (tmp_path (String "." ext) name)
                  = ("tmp" +:+ name) +:+ String "." ext).
  { change (path_name (tmp_path (String "." ext) name))
      with (name_from "pmt" (name +:+ String "." ext)).
    rewrite name_from_no_slash; [reflexivity|].
    rewrite no_slash_app, (tmp_name_no_slash name Hn). simpl. exact Hs. }
  rewrite Hname. clear Hname.
  assert (Hbase0 : no_dot ("tmp" +:+ name) = true)
    by (simpl; now apply tmp_name_no_dot).
  revert Hbase0.
  assert (Hpos : (0 < String.length ("tmp" +:+ name))%nat) by (simpl; lia).
  assert (Hext : (0 < String.length ext)%nat)
    by (destruct ext; [now elim He | simpl; lia]).
  revert Hpos. generalize ("tmp" +:+ name) as base.
  intros base Hpos Hbase.
  rewrite rfind_single_dot; [|exact Hbase|exact Hd].
  rewrite Nat.add_0_l.
  assert (Hin : ((0 <? String.length base)%nat
                 && (String.length base
                     <? String.length (base +:+ String "." ext) - 1)%nat) = true).
  { rewrite length_append. simpl String.length.
    apply andb_true_iff. split; apply Nat.ltb_lt; lia. }
  rewrite Hin. apply substring_prefix.
Qed.

End StemFacts.

(** X16. For a Java submission whose source file got the random name
    [name] and compiles, the command that is run is [java -cp
    /tmp/executions tmp<name>]: the class asked for is named after the
    temporary file, whatever class the source declares. *)
Theorem X16_java_runs_class_named_after_file (env : Executor.Env) (name : string)
        (w : Executor.World) (diagnostics : string) (written : gmap string string) :
  Executor.tmp_name_ok name = true ->
  Executor.compiler env ["javac"; Executor.tmp_path ".java" name] (Executor.files w)
  = Executor.CompileExit 0 diagnostics written ->
  Executor.stem (Executor.tmp_path ".java" name) = "tmp" +:+ name /\
  fst (Executor._build_command env "java" (Executor.tmp_path ".java" name) w)
  = Return ["java"; "-cp"; "/tmp/executions"; "tmp" +:+ name].
Proof.
  intros Hn Hc.
  assert (Hstem : Executor.stem (Executor.tmp_path ".java" name) = "tmp" +:+ name).
  { apply stem_tmp_path; [exact Hn | reflexivity | reflexivity | discriminate]. }
  split; [exact Hstem|].
  unfold Executor._build_command. simpl Executor.lookup_language. cbv iota.
  simpl String.eqb. cbv iota. unfold Executor.run_compiler. rewrite Hc, Hstem. reflexivity.
Qed.

Lemma X16_java_runs_class_named_after_file_witness :
  fst (Executor._build_command
         (Scenario.env_with "abcd1234" Scenario.compilers_succeed Scenario.hangs)
         "java" "/tmp/executions/tmpabcd1234.java"
         (Executor.write_source "/tmp/executions/tmpabcd1234.java"
            "class Main {}" Scenario.empty_world))
  = Return ["java"; "-cp"; "/tmp/executions"; "tmpabcd1234"].
Proof.
  apply (X16_java_runs_class_named_after_file
           (Scenario.env_with "abcd1234" Scenario.compilers_succeed Scenario.hangs)
           "abcd1234"
           (Executor.write_source "/tmp/executions/tmpabcd1234.java"
              "class Main {}" Scenario.empty_world)
           ""
           {[ "/tmp/executions/Main.class" := "class of class Main {}" ]});
    [reflexivity | vm_compute; reflexivity].
Defined.

(** X18. On a request whose JSON body is [null] or an object, the
    handler of the endpoint answers with status 400 exactly when the
    body is [null] or the object has no language or no code (the empty
    object among them); the body of the answer is then the error
    [Missing language or code] and nothing else is done. A missing
    input is not an error: the program then gets the empty string. *)
Theorem X18_endpoint_bad_request (env : Executor.Env) (data : option Executor.Request)
        (w : Executor.World) :
  (fst (fst (Executor.endpoint_execute env data w)) = 400 <->
   has_language_and_code data = false) /\
  (has_language_and_code data = false ->
   Executor.endpoint_execute env data w = ((400, Error "Missing language or code"), w)) /\
  (forall language code,
     Executor.endpoint_execute env
       (Some {| Executor.req_language := Some language; Executor.req_code := Some code;
                Executor.req_input := None |}) w
     = Executor.endpoint_execute env
         (Some {| Executor.req_language := Some language; Executor.req_code := Some code;
                  Executor.req_input := Some "" |}) w).
Proof.
  split; [|split; [|reflexivity]].
  - unfold Executor.endpoint_execute, has_language_and_code.
    destruct data as [[[language|] [code|] input]|]; simpl; try tauto.
    destruct (Executor.execute_code env language code (default "" input) w) as [[r|e] w'];
      simpl; split; discriminate.
  - unfold Executor.endpoint_execute, has_language_and_code.
    destruct data as [[[language|] [code|] input]|]; simpl; (reflexivity || discriminate).
Qed.

Lemma X18_endpoint_bad_request_witness :
  Executor.endpoint_execute
    (Scenario.env_with "abcd1234" Scenario.compilers_succeed Scenario.hangs)
    (Some {| Executor.req_language := Some "python"; Executor.req_code := None;
             Executor.req_input := Some "1 2" |})
    Scenario.empty_world
  = ((400, Error "Missing language or code"), Scenario.empty_world).
Proof.
  apply (X18_endpoint_bad_request
           (Scenario.env_with "abcd1234" Scenario.compilers_succeed Scenario.hangs)
           (Some {| Executor.req_language := Some "python"; Executor.req_code := None;
                    Executor.req_input := Some "1 2" |})
           Scenario.empty_world).
  reflexivity.
Defined.

(** X20. Every result that [execute_code] returns has one of these
    shapes: an output dictionary whose [success] is true exactly when
    its [return_code] is 0, or an error that is [Execution timeout], or
    starts with [Execution failed: ], or is [Unsupported language: ]
    followed by the language asked for. *)
Theorem X20_result_shapes (env : Executor.Env) (language code input_data : string)
        (w : Executor.World) (result : ExecResult) :
  fst (Executor.execute_code env language code input_data w) = Return result ->
  match result with
  | Completed out err rc ok => ok = (rc =? 0)
  | Error message =>
      message = "Execution timeout" \/
      (exists e, message = "Execution failed: " +:+ e) \/
      message = "Unsupported language: " +:+ language
  end.
Proof.
  unfold Executor.execute_code.
  destruct (Executor.lookup_language language) as [lang_info|].
  - destruct (Executor.first_unused _ _ _) as [temp_file|]; [|discriminate].
    unfold Executor.build_and_run.
    destruct (Executor._build_command env language temp_file
                (Executor.write_source temp_file code w)) as [[cmd | e] w1].
    + destruct (Executor.program env cmd input_data (Executor.files w1))
        as [e alive | child lb out err t | child ds]; cbn [fst]; intros [= <-].
      * right. left. now exists e.
      * reflexivity.
      * now left.
    + cbn [fst]. intros [= <-]. right. left. now exists e.
  - cbn [fst]. intros [= <-]. now right; right.
Qed.

Lemma X20_result_shapes_witness :
  exists e, "Execution failed: Compilation failed: error: expected ';'"
            = "Execution failed: " +:+ e.
Proof.
  pose proof (X20_result_shapes
                (Scenario.env_with "abcd1234" Scenario.compilers_fail
                   (Scenario.ends "" "" (Executor.Exited 0)))
                "java" "class Main {" "" Scenario.empty_world
                (Error "Execution failed: Compilation failed: error: expected ';'")
                eq_refl) as [H | [H | H]]; [discriminate H | exact H | discriminate H].
Defined.

Section ThroughTheExecutor.

Import Grader.

Context (post_env : Payload -> Executor.Env) (problem_data : ProblemData)
        (student_code language : string).

Hypothesis unsupported : ~ In language ["python"; "javascript"; "java"; "cpp"; "go"].

Lemma execute_unsupported (input_data : string) (w : Executor.World) :
  _execute_code (via_executor post_env) language student_code input_data w
  = (Error ("Unsupported language: " +:+ language), w).
Proof.
  unfold _execute_code, via_executor. cbn [Grader.language code payload_input].
  pose proof (proj2 (lookup_language_None language) unsupported) as Hl.
  unfold Executor.endpoint_execute, Executor.execute_code. rewrite Hl. reflexivity.
Qed.

Lemma run_tests_unsupported (cases : list TestCase) (w : Executor.World) :
  snd (run_tests (via_executor post_env) problem_data student_code language cases w) = w /\
  Forall (fun r => execution_result r = Error ("Unsupported language: " +:+ language) /\
                   actual r = None)
         (fst (run_tests (via_executor post_env) problem_data student_code language cases w)).
Proof.
  induction cases as [|tc cases [IHw IHr]]; simpl; [split; constructor|].
  unfold run_test. rewrite execute_unsupported.
  destruct (run_tests (via_executor post_env) problem_data student_code language cases w)
    as [rs w'].
  simpl in *. split; [exact IHw|]. constructor; [split; reflexivity | exact IHr].
Qed.

End ThroughTheExecutor.

(** X19. Grading, through the executor, a submission in a language that
    the executor does not support: the run returns; every test case gets
    the error [Unsupported language: ] followed by the language as its
    execution result, with no actual output; the executor's files,
    processes and log are untouched. *)
Theorem X19_grading_an_unsupported_language
        (post_env : Grader.Payload -> Executor.Env) (problem_data : Grader.ProblemData)
        (student_code language : string) (w : Executor.World) :
  ~ In language ["python"; "javascript"; "java"; "cpp"; "go"] ->
  exists s,
    Grader.test_student_code (Grader.via_executor post_env) problem_data
                             student_code language w = (Return s, w) /\
    Forall (fun r =>
              Grader.execution_result r = Error ("Unsupported language: " +:+ language) /\
              Grader.actual r = None)
           (Grader.detailed_results s).
Proof.
  intros H.
  destruct (test_student_code_summary (Grader.via_executor post_env) problem_data
              student_code language w) as [s [Hrun [Hres _]]].
  destruct (run_tests_unsupported post_env problem_data student_code language H
              (default [] (Grader.test_cases problem_data)) w) as [Hw Hall].
  exists s. rewrite Hw in Hrun. split; [exact Hrun|]. rewrite Hres. exact Hall.
Qed.

Lemma X19_grading_an_unsupported_language_witness :
  exists s,
    Grader.test_student_code
      (Grader.via_executor
         (fun _ => Scenario.env_with "abcd1234" Scenario.compilers_succeed Scenario.hangs))
      Scenario.three_of_four "fn main() {}" "rust" Scenario.empty_world
    = (Return s, Scenario.empty_world).
Proof.
  destruct (X19_grading_an_unsupported_language
              (fun _ => Scenario.env_with "abcd1234" Scenario.compilers_succeed Scenario.hangs)
              Scenario.three_of_four "fn main() {}" "rust" Scenario.empty_world)
    as [s [Hrun _]].
  - simpl. intros [H | [H | [H | [H | [H | []]]]]]; discriminate H.
  - exists s. exact Hrun.
Defined.
